(** * 3decision PyMOL plugin: API client and polling flows

    A shallow embedding of [api_client.py] (class [ThreeDecisionAPIClient])
    and of the pure parts of [gui.py] (search polling, project filter,
    transform reshape and flatten), followed by the properties proved
    about them.

    Conventions of the embedding.
    - JSON documents returned by [response.json()] are values of [value];
      Python dictionaries are association lists with distinct keys.
    - A method of the client is a computation in the monad [M]: it reads
      and updates the client's fields, appends to the trace of requests,
      sleeps and configuration saves, and either returns or raises.
    - The remote server is a function from the trace so far and the
      request to what [requests] hands back (a response, or an exception).
    - Strings are strings of 8-bit characters; [lower] and [strip] act on
      ASCII letters and white space.  JSON numbers are integers or
      rationals (a float is the rational it denotes; NaN and the
      infinities, which are not JSON, are left out).
    - [log_debug] and [log_error] only print; they are left out, except
      where evaluating their argument can raise. *)

From Stdlib Require Import ZArith QArith List String Ascii Bool Lia.
Import ListNotations.
Set Warnings "-register-all".
Local Open Scope string_scope.
Local Open Scope list_scope.
Local Open Scope Z_scope.

(** ** JSON values and the Python operations used on them *)

Inductive value : Type :=
| JNull
| JBool (b : bool)
| JInt (n : Z)
| JFloat (q : Q)
| JStr (s : string)
| JList (l : list value)
| JDict (d : list (string * value)).

Inductive exn : Type :=
| AttributeError
| TypeError
| KeyError
| IndexError
| ValueError
| JSONDecodeError
| UnicodeDecodeError
| BadZipFile
| RequestException
| PlainException (msg : string)           (* [Exception(msg)] *)
| RequestFailed (what : string) (status : Z).
    (* [Exception(f"{what} request failed: {status}")] *)

Inductive result (A : Type) : Type :=
| Val (a : A)
| Exc (e : exn).
Arguments Val {A} a.
Arguments Exc {A} e.

Definition rbind {A B} (r : result A) (k : A -> result B) : result B :=
  match r with
  | Val a => k a
  | Exc e => Exc e
  end.

Declare Scope result_scope.
Delimit Scope result_scope with result.
Notation "x <~ c ;; k" := (rbind c (fun x => k))
  (at level 61, c at next level, right associativity) : result_scope.
Local Open Scope result_scope.

(** [bool(v)] *)
Definition truthy (v : value) : bool :=
  match v with
  | JNull => false
  | JBool b => b
  | JInt n => negb (n =? 0)
  | JFloat q => negb (Qeq_bool q 0)
  | JStr s => negb (String.eqb s "")
  | JList l => match l with [] => false | _ => true end
  | JDict d => match d with [] => false | _ => true end
  end.


Fixpoint lookup (k : string) (d : list (string * value)) : option value :=
  match d with
  | [] => None
  | (k', v) :: d' => if String.eqb k k' then Some v else lookup k d'
  end.

(** [v.get(k, default)]: only dictionaries have [get]. *)
Definition py_get (v : value) (k : string) (default : value) : result value :=
  match v with
  | JDict d => Val (match lookup k d with Some x => x | None => default end)
  | _ => Exc AttributeError
  end.

Definition is_substring (k s : string) : bool :=
  match String.index 0 k s with Some _ => true | None => false end.

Definition is_JStr (k : string) (v : value) : bool :=
  match v with JStr s => String.eqb s k | _ => false end.

(** [k in v] for a string [k]: key of a dictionary, element of a list,
    substring of a string; other values are not containers. *)
Definition py_in (k : string) (v : value) : result bool :=
  match v with
  | JDict d => Val (match lookup k d with Some _ => true | None => false end)
  | JList l => Val (existsb (is_JStr k) l)
  | JStr s => Val (is_substring k s)
  | _ => Exc TypeError
  end.

(** [v[k]] for a string [k]. *)
Definition py_getitem (v : value) (k : string) : result value :=
  match v with
  | JDict d => match lookup k d with Some x => Val x | None => Exc KeyError end
  | _ => Exc TypeError
  end.

(** [v[0]] *)
Definition py_first (v : value) : result value :=
  match v with
  | JList l => match l with x :: _ => Val x | [] => Exc IndexError end
  | JStr s => match s with String c _ => Val (JStr (String c "")) | EmptyString => Exc IndexError end
  | JDict _ => Exc KeyError
  | _ => Exc TypeError
  end.

(** [len(v)] *)
Definition py_len (v : value) : result Z :=
  match v with
  | JList l => Val (Z.of_nat (List.length l))
  | JStr s => Val (Z.of_nat (String.length s))
  | JDict d => Val (Z.of_nat (List.length d))
  | _ => Exc TypeError
  end.

(** [list(v)] as a [for] loop sees it: the elements of a list, the
    characters of a string, the keys of a dictionary. *)
Fixpoint chars (s : string) : list value :=
  match s with
  | EmptyString => []
  | String c s' => JStr (String c "") :: chars s'
  end.

Definition py_iter (v : value) : result (list value) :=
  match v with
  | JList l => Val l
  | JStr s => Val (chars s)
  | JDict d => Val (map (fun kv => JStr (fst kv)) d)
  | _ => Exc TypeError
  end.

(** The number a value stands for under [==], [>] and hashing:
    [True] is 1 and [False] is 0. *)
Definition num_of (v : value) : option Q :=
  match v with
  | JBool b => Some (if b then 1%Q else 0%Q)
  | JInt n => Some (inject_Z n)
  | JFloat q => Some q
  | _ => None
  end.

(** [v == n] for an integer literal [n] *)
Definition py_eq_int (v : value) (n : Z) : bool :=
  match num_of v with Some q => Qeq_bool q (inject_Z n) | None => false end.

(** [v > n] for an integer literal [n]; only numbers are ordered with it. *)
Definition py_gt_int (v : value) (n : Z) : result bool :=
  match num_of v with
  | Some q => Val (negb (Qle_bool q (inject_Z n)))
  | None => Exc TypeError
  end.

(** [v == s] for a string literal [s] *)
Definition py_eq_str (v : value) (s : string) : bool := is_JStr s v.

(** Can the value be a member of a [set]?  Lists and dictionaries cannot. *)
Definition hashable (v : value) : bool :=
  match v with JList _ | JDict _ => false | _ => true end.

(** [a == b] on hashable values, as [set] membership uses it. *)
Definition key_eqb (a b : value) : bool :=
  match num_of a, num_of b with
  | Some x, Some y => Qeq_bool x y
  | None, None =>
      match a, b with
      | JNull, JNull => true
      | JStr s, JStr t => String.eqb s t
      | _, _ => false
      end
  | _, _ => false
  end.

(** [v in seen] for a set [seen], kept as the list of its members. *)
Definition set_mem (v : value) (seen : list value) : result bool :=
  if hashable v then Val (existsb (key_eqb v) seen) else Exc TypeError.

(** ** Strings *)

Definition is_space (c : ascii) : bool :=
  let n := nat_of_ascii c in
  ((9 <=? n) && (n <=? 13) || (28 <=? n) && (n <=? 32))%nat.

Fixpoint lstrip (s : string) : string :=
  match s with
  | String c s' => if is_space c then lstrip s' else s
  | EmptyString => EmptyString
  end.

Fixpoint rev_string_acc (s acc : string) : string :=
  match s with
  | EmptyString => acc
  | String c s' => rev_string_acc s' (String c acc)
  end.

Definition rev_string (s : string) : string := rev_string_acc s "".

(** [s.strip()] *)
Definition strip (s : string) : string :=
  rev_string (lstrip (rev_string (lstrip s))).

Fixpoint lstrip_char (c : ascii) (s : string) : string :=
  match s with
  | String c' s' => if Ascii.eqb c c' then lstrip_char c s' else s
  | EmptyString => EmptyString
  end.

(** [s.rstrip('/')] for [c = '/'] *)
Definition rstrip_char (c : ascii) (s : string) : string :=
  rev_string (lstrip_char c (rev_string s)).

Definition startswith (p s : string) : bool := String.prefix p s.

(** [s.endswith(p)] *)
Definition endswith (p s : string) : bool :=
  String.prefix (rev_string p) (rev_string s).

(** [c in s] for a one-character string [c] *)
Fixpoint has_char (c : ascii) (s : string) : bool :=
  match s with
  | EmptyString => false
  | String c' s' => Ascii.eqb c c' || has_char c s'
  end.

(** The part of [s] after its last [c], or all of [s] without any:
    [s.split(c)[-1]]. *)
Fixpoint after_last (c : ascii) (s : string) : string :=
  match s with
  | EmptyString => EmptyString
  | String c' s' =>
      if has_char c s' then after_last c s'
      else if Ascii.eqb c c' then s' else s
  end.

(** The part of [s] before its last [c]: [s.rsplit(c, 1)[0]] when [c]
    occurs in [s]. *)
Fixpoint before_last (c : ascii) (s : string) : string :=
  match s with
  | EmptyString => EmptyString
  | String c' s' =>
      if has_char c s' then String c' (before_last c s')
      else if Ascii.eqb c c' then EmptyString else s
  end.

Definition lower_char (c : ascii) : ascii :=
  let n := nat_of_ascii c in
  if ((65 <=? n) && (n <=? 90))%nat then ascii_of_nat (n + 32) else c.

(** [s.lower()] *)
Fixpoint lower (s : string) : string :=
  match s with
  | EmptyString => EmptyString
  | String c s' => String (lower_char c) (lower s')
  end.

(** [v.lower()]: only strings have it. *)
Definition py_lower (v : value) : result string :=
  match v with
  | JStr s => Val (lower s)
  | _ => Exc AttributeError
  end.

(** Digits of a decimal numeral, as [int(s)] reads them after the sign:
    digits, with single underscores allowed between two digits. *)
Definition digit_of (c : ascii) : option Z :=
  let n := nat_of_ascii c in
  if ((48 <=? n) && (n <=? 57))%nat then Some (Z.of_nat n - 48) else None.

Fixpoint read_digits (s : string) (acc : Z) (after_digit : bool) : option Z :=
  match s with
  | EmptyString => if after_digit then Some acc else None
  | String c s' =>
      match digit_of c with
      | Some d => read_digits s' (10 * acc + d) true
      | None =>
          if Ascii.eqb c "_" && after_digit
          then match s' with
               | String c' _ => match digit_of c' with
                                | Some _ => read_digits s' acc false
                                | None => None
                                end
               | EmptyString => None
               end
          else None
      end
  end.

(** [int(v)] *)
Definition py_int (v : value) : result Z :=
  match v with
  | JInt n => Val n
  | JBool b => Val (if b then 1 else 0)
  | JFloat q => Val (Z.quot (Qnum q) (Zpos (Qden q)))
  | JStr s =>
      let body := strip s in
      let (neg, digits) :=
        match body with
        | String c rest =>
            if Ascii.eqb c "-" then (true, rest)
            else if Ascii.eqb c "+" then (false, rest) else (false, body)
        | EmptyString => (false, body)
        end in
      match read_digits digits 0 false with
      | Some n => Val (if neg then - n else n)
      | None => Exc ValueError
      end
  | _ => Exc TypeError
  end.

(** ** The transport: requests, responses and the server *)

Inductive http_method : Type := GET | POST | OtherMethod (name : string).

(** The two headers the client manages.  [Authorization = Some t] is the
    header [Authorization: Bearer {t}]; [None] is its absence. *)
Record headers : Type := mkHeaders {
  Authorization : option value;
  Dng_Api_Key : option string
}.

Definition no_headers : headers := mkHeaders None None.

(** The path under [{base_url}] of each endpoint the client calls. *)
Inductive endpoint : Type :=
| auth_api_login                                   (* /auth/api/login *)
| search (query : string)                          (* /search/{query} *)
| queues_jobs (queue_name : value) (job_id : value) (* /queues/{queue_name}/jobs/{job_id} *)
| graphql                                          (* /graphql *)
| structures_info_annotation                       (* /structures/info/annotation *)
| exports_structure                                (* /exports/structure *)
| domain_events (domain_event_id : string)         (* /domain-events/{domain_event_id} *)
| exports_structure_download (domain_event_id : string) (filename : value)
    (* /exports/structure/{domain_event_id}?filename={filename}&download=true *)
| projects                                         (* /projects *)
| projects_structures_matrix (project_id : value)  (* /projects/{project_id}/structures/matrix *)
| structures_associated_files (external_code : value) (* /structures/{external_code}/associated-files *)
| structures_file_download (file_id : value).      (* /structures/file/{file_id}/download *)

Inductive url : Type :=
| Url (base : option string) (path : endpoint)
| DirectUrl (u : value).

(** What [zipfile.ZipFile(io.BytesIO(b))] finds in the bytes [b]: [None]
    when it raises [BadZipFile], else the entries in [namelist()] order,
    each with what [read(name).decode('utf-8')] gives for it. *)
Definition zip_entries : Type := list (string * result string).

Record bytes : Type := mkBytes {
  raw : string;
  zip_view : option zip_entries
}.

(** A [requests.Response] object: [json] is [None] when [response.json()] raises. *)
Record Response : Type := mkResponse {
  status_code : Z;
  text : string;
  json : option value;
  content : bytes
}.

(** A request as it leaves the session, session headers merged in. *)
Record request : Type := mkRequest {
  r_method : http_method;
  r_url : url;
  r_headers : headers;
  r_json : option value;
  r_params : list (string * value)
}.

(** The signals of [SearchThread] that carry an outcome ([status_update]
    only carries progress text for the dialog and is left out). *)
Inductive signal : Type :=
| results_ready (structures : list value)
| error_occurred (msg : string)
| error_occurred_exception (e : exn).   (* [f"Search error: {str(e)}"] *)

Inductive event : Type :=
| EvRequest (r : request)
| EvSleep (milliseconds : Z)
| EvSaveConfig
| EvEmit (s : signal).

(** The server (and the network): its answer may depend on everything the
    client did before. *)
Definition server : Type := list event -> request -> result Response.

(** ** The client's state and the monad of its methods *)

Record world : Type := mkWorld {
  base_url : option string;
  api_key : option string;
  token : value;                 (* [JNull] is Python's [None] *)
  session_headers : headers;
  trace : list event
}.

Definition set_token (t : value) (w : world) : world :=
  mkWorld (base_url w) (api_key w) t (session_headers w) (trace w).

Definition set_session_headers (h : headers) (w : world) : world :=
  mkWorld (base_url w) (api_key w) (token w) h (trace w).

Definition add_event (e : event) (w : world) : world :=
  mkWorld (base_url w) (api_key w) (token w) (session_headers w) (trace w ++ [e]).

Definition M (A : Type) : Type := world -> result A * world.

Definition ret {A} (a : A) : M A := fun w => (Val a, w).

Definition raise {A} (e : exn) : M A := fun w => (Exc e, w).

Definition bind {A B} (c : M A) (k : A -> M B) : M B :=
  fun w => match c w with
           | (Val a, w') => k a w'
           | (Exc e, w') => (Exc e, w')
           end.

(** [try: body except Exception as e: handler e] *)
Definition try_except {A} (body : M A) (handler : exn -> M A) : M A :=
  fun w => match body w with
           | (Val a, w') => (Val a, w')
           | (Exc e, w') => handler e w'
           end.

(** A pure Python operation that may raise. *)
Definition lift {A} (r : result A) : M A := fun w => (r, w).

Definition gets {A} (f : world -> A) : M A := fun w => (Val (f w), w).

Definition modify (f : world -> world) : M unit := fun w => (Val tt, f w).

Declare Scope py_scope.
Delimit Scope py_scope with py.
Notation "x <- c ;; k" := (bind c (fun x => k))
  (at level 61, c at next level, right associativity) : py_scope.
Notation "c ;;; k" := (bind c (fun _ => k))
  (at level 61, right associativity) : py_scope.
Local Open Scope py_scope.

(** [time.sleep(seconds)] *)
Definition sleep (seconds : Z) : M unit :=
  modify (add_event (EvSleep (1000 * seconds))).

(** [self.msleep(milliseconds)] of a [QThread] *)
Definition msleep (milliseconds : Z) : M unit :=
  modify (add_event (EvSleep milliseconds)).

(** [except json.JSONDecodeError: handler]: other exceptions pass. *)
Definition except_json_decode {A} (body : M A) (handler : M A) : M A :=
  try_except body
    (fun e => match e with JSONDecodeError => handler | _ => raise e end).

(** [isinstance(v, dict)] *)
Definition is_dict (v : value) : bool :=
  match v with JDict _ => true | _ => false end.

(** [d[k] = v] on a dictionary: an existing key keeps its place. *)
Fixpoint dict_set {A} (k : string) (v : A) (d : list (string * A)) : list (string * A) :=
  match d with
  | [] => [(k, v)]
  | (k', v') :: d' =>
      if String.eqb k k' then (k, v) :: d' else (k', v') :: dict_set k v d'
  end.

(** [v[i:i+n]] *)
Definition py_slice (v : value) (i n : nat) : result value :=
  match v with
  | JList l => Val (JList (firstn n (skipn i l)))
  | JStr s => Val (JStr (String.substring i n s))
  | _ => Exc TypeError
  end.

(** [response.json()] *)
Definition response_json (r : Response) : M value :=
  lift (match json r with Some v => Val v | None => Exc JSONDecodeError end).

(** [x in [200, 201]] *)
Definition ok_status (s : Z) : bool := (s =? 200) || (s =? 201).

(** What one pass through a polling loop's body decides. *)
Inductive loop_step (A : Type) : Type :=
| Return (a : A)
| Continue.
Arguments Return {A} a.
Arguments Continue {A}.

Section Client.

Variable net : server.

(** Session headers apply unless the call gives its own. *)
Definition merge_headers (session call : headers) : headers :=
  mkHeaders
    (match Authorization call with Some a => Some a | None => Authorization session end)
    (match Dng_Api_Key call with Some k => Some k | None => Dng_Api_Key session end).

(** [self.session.get(...)] and [self.session.post(...)] *)
Definition session_send (m : http_method) (u : url) (h : headers)
    (json_data : option value) (params : list (string * value)) : M Response :=
  fun w =>
    let req := mkRequest m u (merge_headers (session_headers w) h) json_data params in
    (net (trace w) req, add_event (EvRequest req) w).

Definition session_get (u : url) (h : headers) (params : list (string * value)) : M Response :=
  session_send GET u h None params.

Definition session_post (u : url) (h : headers) (json_data : option value)
    (params : list (string * value)) : M Response :=
  session_send POST u h json_data params.

Definition is_some_nonempty (s : option string) : bool :=
  match s with Some x => negb (String.eqb x "") | None => false end.

Definition is_configured (w : world) : bool :=
  is_some_nonempty (base_url w) && is_some_nonempty (api_key w).

Definition save_config : M unit := modify (add_event EvSaveConfig).

Definition configure (base api : string) : M unit :=
  let base := if startswith "http://" base || startswith "https://" base
              then base else String.append "http://" base in
  modify (fun w =>
    mkWorld (Some (rstrip_char "/" base)) (Some api) JNull
            (mkHeaders None (Some api)) (trace w)).

Definition login : M bool :=
  configured <- gets is_configured ;;
  if negb configured then ret false else
  try_except
    (b <- gets base_url ;;
     k <- gets api_key ;;
     response <- session_get (Url b auth_api_login) (mkHeaders None k) [] ;;
     if ok_status (status_code response) then
       data <- response_json response ;;
       t <- lift (py_get data "access_token" JNull) ;;
       modify (set_token t) ;;;
       if truthy t then
         modify (set_session_headers (mkHeaders (Some t) None)) ;;;
         save_config ;;;
         ret true
       else ret false
     else ret false)
    (fun _ => ret false).

Definition test_connection : M bool :=
  w <- gets (fun w => w) ;;
  if negb (is_configured w) then ret false else
  if truthy (token w) && match Authorization (session_headers w) with Some _ => true | None => false end
  then ret true
  else login.

Definition is_authenticated : M bool :=
  configured <- gets is_configured ;;
  if configured then test_connection else ret false.

Definition auth_failed (s : Z) : bool := (s =? 401) || (s =? 403).

(** The [if method.upper() == 'GET': ... else: ...] of both attempts. *)
Definition send (method : http_method) (u : url) (h : headers)
    (json_data : option value) (params : list (string * value)) : M Response :=
  match method with
  | GET => session_get u h params
  | _ => session_post u h json_data params
  end.

(** [headers] after [if 'Authorization' not in headers and self.token] *)
Definition with_token (t : value) (h : headers) : headers :=
  match Authorization h with
  | None => if truthy t then mkHeaders (Some t) (Dng_Api_Key h) else h
  | Some _ => h
  end.

(** [self.token = None] and [del self.session.headers['Authorization']] *)
Definition clear_token (w : world) : world :=
  set_session_headers (mkHeaders None (Dng_Api_Key (session_headers w)))
                      (set_token JNull w).

Definition _request_with_retry (method : http_method) (u : url) (h : headers)
    (json_data : option value) (params : list (string * value)) : M (option Response) :=
  t <- gets token ;;
  let h := with_token t h in
  match method with
  | OtherMethod _ => ret None
  | _ =>
      response <- send method u h json_data params ;;
      if auth_failed (status_code response) then
        modify clear_token ;;;
        ok <- login ;;
        if ok then
          t' <- gets token ;;
          let h' := mkHeaders (Some t') (Dng_Api_Key h) in
          response' <- send method u h' json_data params ;;
          ret (Some response')
        else ret None
      else ret (Some response)
  end.

(** *** Structure Info Resolver *)

(** The deduplication loop of [_fetch_structures_batch]: [seen] is
    [seen_ids]; the result is [unique_structures]. *)
Fixpoint unique_structures (batch_results : list value) (seen : list value)
    : result (list value) :=
  match batch_results with
  | [] => Val []
  | structure :: rest =>
      match py_get structure "structure_id" JNull with
      | Exc e => Exc e
      | Val structure_id =>
          if truthy structure_id then
            match set_mem structure_id seen with
            | Exc e => Exc e
            | Val true => unique_structures rest seen
            | Val false =>
                match unique_structures rest (structure_id :: seen) with
                | Val u => Val (structure :: u)
                | Exc e => Exc e
                end
            end
          else unique_structures rest seen
      end
  end.

(** The GraphQL document, a constant of the source (white space condensed). *)
Definition GetStructuresInfo_query : string :=
  "query GetStructuresInfo($ids: [Int!]!) { getStructuresInfo(ids: $ids) { structure_id general { structure_id external_code title method resolution created_date imported_date created_by imported_by source } } }".

Definition graphql_payload (structure_ids : value) : value :=
  JDict [("query", JStr GetStructuresInfo_query);
         ("variables", JDict [("ids", structure_ids)])].

(** [data['data']['getStructuresInfo']] when both keys are there. *)
Definition batch_results_of (data : value) : result (option value) :=
  match py_in "data" data with
  | Exc e => Exc e
  | Val false => Val None
  | Val true =>
      match py_getitem data "data" with
      | Exc e => Exc e
      | Val inner =>
          match py_in "getStructuresInfo" inner with
          | Exc e => Exc e
          | Val false => Val None
          | Val true =>
              match py_getitem inner "getStructuresInfo" with
              | Exc e => Exc e
              | Val b => Val (Some b)
              end
          end
      end
  end.

Definition _fetch_structures_batch (structure_ids : value) : M (list value) :=
  try_except
    (b <- gets base_url ;;
     _ <- lift (py_len structure_ids) ;;
     response <- _request_with_retry POST (Url b graphql) no_headers
                   (Some (graphql_payload structure_ids)) [] ;;
     match response with
     | None => ret []
     | Some response =>
         if ok_status (status_code response) then
           data <- response_json response ;;
           found <- lift (batch_results_of data) ;;
           match found with
           | Some batch_results =>
               items <- lift (py_iter batch_results) ;;
               lift (unique_structures items [])
           | None => ret []
           end
         else ret []
     end)
    (fun _ => ret []).

Definition batch_size : nat := 500.

(** [range(0, n, batch_size)] *)
Definition batch_starts (n : nat) : list nat :=
  map (fun j => (batch_size * j)%nat) (seq 0 ((n + batch_size - 1) / batch_size)).

(** The [for i in range(...)] loop of [get_structures_info];
    [all_structures] is the accumulator. *)
Fixpoint fetch_batches (structure_ids : value) (starts : list nat)
    (all_structures : list value) : M (list value) :=
  match starts with
  | [] => ret all_structures
  | i :: starts' =>
      batch_ids <- lift (py_slice structure_ids i batch_size) ;;
      batch_structures <- _fetch_structures_batch batch_ids ;;
      (* [if batch_structures: all_structures.extend(batch_structures)] *)
      fetch_batches structure_ids starts' (all_structures ++ batch_structures)
  end.

Definition get_structures_info (structure_ids : value) : M (list value) :=
  ok <- test_connection ;;
  if negb ok then ret [] else
  try_except
    (n <- lift (py_len structure_ids) ;;
     if n >? Z.of_nat batch_size
     then fetch_batches structure_ids (batch_starts (Z.to_nat n)) []
     else _fetch_structures_batch structure_ids)
    (fun _ => ret []).

(** *** Export Assembler *)

(** [filename_without_ext]: [filename.rsplit('.', 1)[0]] when ['.' in
    filename], else [filename] itself. *)
Definition filename_without_ext (filename : value) : result value :=
  match py_in "." filename with
  | Exc e => Exc e
  | Val false => Val filename
  | Val true =>
      match filename with
      | JStr s => Val (JStr (before_last "." s))
      | _ => Exc AttributeError
      end
  end.

(** The download that follows a successful export, shared line by line
    by the three polling loops: from [file_names = content.get(...)] to
    the [return] of the downloaded payload.  [accept] is the status test
    of the download ([in [200, 201]] or [== 200]). *)
Definition download_export {A} (domain_event_id : string) (content_ : value)
    (accept : Z -> bool) (payload : Response -> result A) : M (option A) :=
  file_names <- lift (py_get content_ "file_names" (JList [])) ;;
  if negb (truthy file_names) then ret None else
  n <- lift (py_len file_names) ;;
  if negb (n >? 0) then ret None else
  first_file <- lift (py_first file_names) ;;
  if negb (is_dict first_file) then ret None else
  filename <- lift (py_get first_file "file_name" JNull) ;;
  if negb (truthy filename) then ret None else
  name <- lift (filename_without_ext filename) ;;
  b <- gets base_url ;;
  download_response <- _request_with_retry GET
      (Url b (exports_structure_download domain_event_id name)) no_headers None [] ;;
  match download_response with
  | None => ret None
  | Some download_response =>
      if accept (status_code download_response)
      then a <- lift (payload download_response) ;; ret (Some a)
      else ret None
  end.

(** One pass through the [while attempt < max_attempts] body of
    [export_structure_pdb] and of [download_structures_zip] (the two loops
    differ only in the payload they return). *)
Definition poll_export_body {A} (domain_event_id : string)
    (payload : Response -> result A) : M (loop_step (option A)) :=
  b <- gets base_url ;;
  domain_response <- _request_with_retry GET
      (Url b (domain_events domain_event_id)) no_headers None [] ;;
  match domain_response with
  | None => ret (Return None)
  | Some domain_response =>
      if ok_status (status_code domain_response) then
        except_json_decode
          (domain_data <- response_json domain_response ;;
           state <- lift (py_get domain_data "state" JNull) ;;
           if py_eq_str state "success" then
             content_ <- lift (py_get domain_data "content" (JDict [])) ;;
             errors <- lift (py_get content_ "errors" (JDict [])) ;;
             not_exported <- lift (py_get errors "not_exported" (JList [])) ;;
             if truthy not_exported then
               first_error <- lift (py_first not_exported) ;;
               _ <- lift (py_get first_error "error_message" (JStr "Unknown export error")) ;;
               ret (Return None)
             else
               r <- download_export domain_event_id content_ ok_status payload ;;
               ret (Return r)
           else if py_eq_str state "failed" then ret (Return None)
           else
             sleep 2 ;;;
             ret Continue)
          (ret (Return None))
      else ret (Return None)
  end.

(** The [while] loop itself; [remaining] is [max_attempts - attempt].
    Running out of attempts is the polling timeout. *)
Fixpoint poll_export {A} (remaining : nat) (domain_event_id : string)
    (payload : Response -> result A) : M (option A) :=
  match remaining with
  | O => ret None
  | S remaining' =>
      step <- poll_export_body domain_event_id payload ;;
      match step with
      | Return r => ret r
      | Continue => poll_export remaining' domain_event_id payload
      end
  end.

Definition max_attempts : nat := 30.

(** From [if response.status_code in [200, 201]] on, after the export
    request of [export_structure_pdb] and [download_structures_zip]. *)
Definition await_export {A} (response : Response)
    (payload : Response -> result A) : M (option A) :=
  if ok_status (status_code response) then
    let domain_event_id := strip (text response) in
    if negb (String.eqb domain_event_id "")
    then poll_export max_attempts domain_event_id payload
    else ret None
  else ret None.

Definition export_structure_pdb (structure_id : value) : M (option string) :=
  ok <- test_connection ;;
  if negb ok then ret None else
  try_except
    (b <- gets base_url ;;
     n <- lift (py_int structure_id) ;;
     response <- _request_with_retry POST (Url b exports_structure) no_headers
                   (Some (JDict [("structures_id", JList [JInt n])]))
                   [("output_format", JStr "structures-pdb-txt")] ;;
     match response with
     | None => ret None
     | Some response => await_export response (fun r => Val (text r))
     end)
    (fun _ => ret None).

Definition download_structures_zip (structure_ids : list value)
    (matrices : option (list value)) : M (option bytes) :=
  ok <- is_authenticated ;;
  if negb ok then raise (PlainException "Not authenticated") else
  try_except
    (b <- gets base_url ;;
     t <- gets token ;;
     let payload :=
       JDict (("structures_id", JList structure_ids) ::
              match matrices with
              | Some (m :: ms) => [("matrix", JList (m :: ms))]
              | _ => []
              end) in
     response <- _request_with_retry POST (Url b exports_structure)
                   (mkHeaders (Some t) None) (Some payload)
                   [("output_format", JStr "structures-pdb-zip")] ;;
     match response with
     | None => ret None
     | Some response => await_export response (fun r => Val (content r))
     end)
    (fun _ => ret None).

(** A list comprehension whose element expression may raise. *)
Fixpoint comprehension {A B} (f : A -> result B) (l : list A) : result (list B) :=
  match l with
  | [] => Val []
  | x :: l' =>
      match f x with
      | Exc e => Exc e
      | Val y => match comprehension f l' with
                 | Val ys => Val (y :: ys)
                 | Exc e => Exc e
                 end
      end
  end.

(** [{"external_code": item["external_code"], "structure_id":
    item["structure_id"], "transform": item["transform"]}] *)
Definition matrix_entry (item : value) : result value :=
  match py_getitem item "external_code" with
  | Exc e => Exc e
  | Val code =>
      match py_getitem item "structure_id" with
      | Exc e => Exc e
      | Val sid =>
          match py_getitem item "transform" with
          | Exc e => Exc e
          | Val tr => Val (JDict [("external_code", code); ("structure_id", sid);
                                  ("transform", tr)])
          end
      end
  end.

(** [zip_ref.read(name).decode('utf-8')]: of several entries with one
    name, the archive's directory keeps the last. *)
Fixpoint zip_read (name : string) (entries : zip_entries) : result string :=
  match entries with
  | [] => Exc KeyError
  | (n, c) :: rest =>
      if existsb (fun e => String.eqb name (fst e)) rest then zip_read name rest
      else if String.eqb name n then c else Exc KeyError
  end.

(** The [for pdb_filename in pdb_files] loop; [pdb_files_dict] is the
    accumulator. *)
Fixpoint extract_pdb_files (pdb_files : list string) (entries : zip_entries)
    (pdb_files_dict : list (string * string)) : result (list (string * string)) :=
  match pdb_files with
  | [] => Val pdb_files_dict
  | pdb_filename :: rest =>
      match zip_read pdb_filename entries with
      | Exc e => Exc e
      | Val pdb_content =>
          let base_filename := after_last "/" pdb_filename in
          extract_pdb_files rest entries (dict_set base_filename pdb_content pdb_files_dict)
      end
  end.

(** The [with zipfile.ZipFile(...)] block of
    [export_structures_with_transforms], both [except] clauses included. *)
Definition unpack_zip (zip_content : bytes) : option (list (string * string)) :=
  match zip_view zip_content with
  | None => None
  | Some entries =>
      let file_list := map fst entries in
      let pdb_files := filter (endswith ".pdb") file_list in
      match extract_pdb_files pdb_files entries [] with
      | Exc _ => None
      | Val [] => None
      | Val pdb_files_dict => Some pdb_files_dict
      end
  end.

(** [str(v)], as an f-string renders a value. *)
Variable py_str : value -> string.

(** One pass through the polling loop of the single-structure branch of
    [export_structures_with_transforms]; [Continue] falls through to
    [attempt += 1]. *)
Definition poll_batch_body (structures_with_transforms : list value)
    (domain_event_id : string) : M (loop_step (option (list (string * string)))) :=
  b <- gets base_url ;;
  domain_response <- _request_with_retry GET
      (Url b (domain_events domain_event_id)) no_headers None [] ;;
  match domain_response with
  | None => ret (Return None)
  | Some domain_response =>
      if ok_status (status_code domain_response) then
        try_except
          (domain_data <- response_json domain_response ;;
           state <- lift (py_get domain_data "state" JNull) ;;
           if py_eq_str state "success" then
             content_ <- lift (py_get domain_data "content" (JDict [])) ;;
             errors <- lift (py_get content_ "errors" (JDict [])) ;;
             not_exported <- lift (py_get errors "not_exported" (JList [])) ;;
             if truthy not_exported then ret (Return None)
             else
               r <- download_export domain_event_id content_ (Z.eqb 200)
                      (fun download_response =>
                         match structures_with_transforms with
                         | [] => Exc IndexError
                         | item :: _ =>
                             match py_getitem item "external_code" with
                             | Exc e => Exc e
                             | Val external_code =>
                                 Val [(String.append (py_str external_code) ".pdb",
                                       text download_response)]
                             end
                         end) ;;
               ret (Return r)
           else if py_eq_str state "failed" then ret (Return None)
           else ret Continue)
          (fun _ => ret Continue)
      else ret Continue
  end.

Fixpoint poll_batch (remaining : nat) (structures_with_transforms : list value)
    (domain_event_id : string) : M (option (list (string * string))) :=
  match remaining with
  | O => ret None
  | S remaining' =>
      step <- poll_batch_body structures_with_transforms domain_event_id ;;
      match step with
      | Return r => ret r
      | Continue =>
          (* [attempt += 1; if attempt < max_attempts: time.sleep(2)] *)
          (match remaining' with O => ret tt | S _ => sleep 2 end) ;;;
          poll_batch remaining' structures_with_transforms domain_event_id
      end
  end.

Definition export_structures_with_transforms (structures_with_transforms : list value)
    : M (option (list (string * string))) :=
  ok <- test_connection ;;
  if negb ok then ret None else
  try_except
    (if (1 <? List.length structures_with_transforms)%nat then
       matrix_payload <- lift (comprehension matrix_entry structures_with_transforms) ;;
       structure_ids <- lift (comprehension (fun item => py_getitem item "structure_id")
                                            structures_with_transforms) ;;
       zip_content <- download_structures_zip structure_ids (Some matrix_payload) ;;
       match zip_content with
       | None => ret None
       | Some zip_content =>
           if String.eqb (raw zip_content) "" then ret None
           else ret (unpack_zip zip_content)
       end
     else
       b <- gets base_url ;;
       codes <- lift (comprehension (fun item => py_getitem item "external_code")
                                    structures_with_transforms) ;;
       matrix <- lift (comprehension matrix_entry structures_with_transforms) ;;
       response <- _request_with_retry POST (Url b exports_structure) no_headers
                     (Some (JDict [("external_codes", JList codes); ("matrix", JList matrix)]))
                     [("output_format", JStr "structures-pdb-txt")] ;;
       match response with
       | None => ret None
       | Some response =>
           if ok_status (status_code response) then
             let domain_event_id := strip (text response) in
             if negb (String.eqb domain_event_id "")
             then poll_batch max_attempts structures_with_transforms domain_event_id
             else ret None
           else ret None
       end)
    (fun _ => ret None).

(** *** Search submission and job status *)

Definition get_job_status (queue_name job_id : value) : M value :=
  ok <- test_connection ;;
  if negb ok then ret JNull else
  try_except
    (b <- gets base_url ;;
     response <- _request_with_retry GET (Url b (queues_jobs queue_name job_id))
                   no_headers None [] ;;
     match response with
     | None => ret JNull
     | Some response =>
         if ok_status (status_code response)
         then response_json response
         else ret JNull
     end)
    (fun _ => ret JNull).

(** [structure_ids] as [submit_search] and the polling loop read it:
    [[]] unless [returnvalue.STRUCTURE_ID] is there. *)
Definition returned_structure_ids (data : value) : result value :=
  match py_in "returnvalue" data with
  | Exc e => Exc e
  | Val false => Val (JList [])
  | Val true =>
      match py_getitem data "returnvalue" with
      | Exc e => Exc e
      | Val rv =>
          match py_in "STRUCTURE_ID" rv with
          | Exc e => Exc e
          | Val false => Val (JList [])
          | Val true => py_getitem rv "STRUCTURE_ID"
          end
      end
  end.

(** [queue_data['structures_info'] = ...] *)
Definition with_structures_info (queue_data : value) (info : list value) : result value :=
  match queue_data with
  | JDict d => Val (JDict (dict_set "structures_info" (JList info) d))
  | _ => Exc TypeError
  end.

Definition submit_search (query : string) : M value :=
  ok <- test_connection ;;
  if negb ok then ret JNull else
  try_except
    (b <- gets base_url ;;
     response <- _request_with_retry GET (Url b (search query)) no_headers None [] ;;
     match response with
     | None => ret JNull
     | Some response =>
         if ok_status (status_code response) then
           except_json_decode
             (data <- response_json response ;;
              job_id <- lift (py_get data "id" JNull) ;;
              if truthy job_id then
                queue_response <- _request_with_retry GET
                    (Url b (queues_jobs (JStr "basicSearch") job_id)) no_headers None [] ;;
                match queue_response with
                | None => ret JNull
                | Some queue_response =>
                    if ok_status (status_code queue_response) then
                      queue_data <- response_json queue_response ;;
                      progress <- lift (py_get queue_data "progress" JNull) ;;
                      let progress := match progress with JNull => JInt 0 | _ => progress end in
                      if py_eq_int progress 100 then
                        structure_ids <- lift (returned_structure_ids queue_data) ;;
                        if truthy structure_ids then
                          structures_info <- get_structures_info structure_ids ;;
                          lift (with_structures_info queue_data structures_info)
                        else lift (with_structures_info queue_data [])
                      else
                        ret (JDict [("id", job_id); ("queue", JStr "basicSearch");
                                    ("status", JStr "running"); ("progress", progress);
                                    ("polling_needed", JBool true)])
                    else ret JNull
                end
              else
                ret (JDict [("id", JStr "direct"); ("queue", JStr "direct");
                            ("status", JStr "completed"); ("result", data)]))
             (ret JNull)
         else ret JNull
     end)
    (fun _ => ret JNull).



(** *** Project/Structure Catalog *)



(** *** Associated-File Access *)





End Client.

(** ** The dialog's worker threads ([gui.py]) *)

Definition emit (s : signal) : M unit := modify (add_event (EvEmit s)).

(** What the 60-attempt polling loop of [SearchThread.run] makes of one
    truthy [result] of [get_job_status]: the tests between [if result:]
    and [# Wait before next poll]. *)
Inductive poll_verdict : Type :=
| Done (structure_ids : value)   (* stop; fetch details or report no results *)
| JobFailed                      (* stop with "Search job failed" *)
| Pending.                       (* sleep and poll again *)

Definition is_empty_list (v : value) : bool :=
  match v with JList [] => true | _ => false end.

Definition poll_verdict_of (result_ : value) : result poll_verdict :=
  progress <~ py_get result_ "progress" (JInt 0) ;;
  structure_ids <~ returned_structure_ids result_ ;;
  stop <~ (if py_eq_int progress 100 then Val true
           else if is_empty_list structure_ids then py_gt_int progress 0
           else Val false) ;;
  if (stop : bool) then Val (Done structure_ids)
  else
    status <~ py_get result_ "status" JNull ;;
    if py_eq_str status "failed" then Val JobFailed else Val Pending.

Section SearchThread.

Variable net : server.

(** [if structure_ids: ... results_ready.emit(structures) else:
    results_ready.emit([])] *)
Definition emit_results (structure_ids : value) : M unit :=
  if truthy structure_ids then
    structures <- get_structures_info net structure_ids ;;
    emit (results_ready structures)
  else emit (results_ready []).

(** The loop [while attempt < max_attempts] with [max_attempts = 60];
    [remaining] is [max_attempts - attempt]. *)
Fixpoint poll_search (remaining : nat) (queue_name job_id : value) : M unit :=
  match remaining with
  | O => emit (error_occurred "Search timed out waiting for completion")
  | S remaining' =>
      step <- try_except
                (result_ <- get_job_status net queue_name job_id ;;
                 if truthy result_ then
                   verdict <- lift (poll_verdict_of result_) ;;
                   match verdict with
                   | Done structure_ids =>
                       emit_results structure_ids ;;; ret (Return tt)
                   | JobFailed =>
                       emit (error_occurred "Search job failed") ;;; ret (Return tt)
                   | Pending => msleep 2000 ;;; ret Continue
                   end
                 else msleep 2000 ;;; ret Continue)
                (fun _ => msleep 2000 ;;; ret Continue) ;;
      match step with
      | Return _ => ret tt
      | Continue => poll_search remaining' queue_name job_id
      end
  end.

(** The fallback loop ([max_attempts = 30]) for job responses without
    [polling_needed]. *)
Fixpoint poll_search_fallback (remaining : nat) (queue_name job_id : value) : M unit :=
  match remaining with
  | O => emit (error_occurred "Search timed out")
  | S remaining' =>
      step <- try_except
                (result_ <- get_job_status net queue_name job_id ;;
                 if truthy result_ then
                   status <- lift (py_get result_ "status" JNull) ;;
                   if py_eq_str status "completed" then
                     structure_ids <- lift (py_get result_ "result" (JList [])) ;;
                     emit_results structure_ids ;;; ret (Return tt)
                   else if py_eq_str status "failed" then
                     emit (error_occurred "Search job failed") ;;; ret (Return tt)
                   else ret Continue
                 else ret Continue)
                (fun _ => ret Continue) ;;
      match step with
      | Return _ => ret tt
      | Continue => msleep 2000 ;;; poll_search_fallback remaining' queue_name job_id
      end
  end.

(** [SearchThread.run] *)
Definition SearchThread_run (search_query : string) : M unit :=
  try_except
    (job_response <- submit_search net search_query ;;
     if negb (truthy job_response) then emit (error_occurred "Failed to submit search") else
     has_info <- lift (py_in "structures_info" job_response) ;;
     if has_info then
       structures <- lift (py_getitem job_response "structures_info") ;;
       items <- lift (match structures with JList l => Val l | _ => Exc TypeError end) ;;
       emit (results_ready items)
     else
       polling_needed <- lift (py_get job_response "polling_needed" JNull) ;;
       job_id <- lift (py_get job_response "id" JNull) ;;
       queue_name <- lift (py_get job_response "queue" (JStr "basicSearch")) ;;
       if truthy polling_needed then
         if negb (truthy job_id) then emit (error_occurred "No job ID received from search")
         else poll_search 60 queue_name job_id
       else
         if negb (truthy job_id) then emit (error_occurred "No job ID received from search")
         else
           status <- lift (py_get job_response "status" JNull) ;;
           if py_eq_str status "completed" then
             structure_ids <- lift (py_get job_response "result" (JList [])) ;;
             emit_results structure_ids
           else if py_eq_str job_id "direct" then ret tt
           else poll_search_fallback 30 queue_name job_id)
    (fun e => emit (error_occurred_exception e)).

End SearchThread.

(** [load_projects_for_tab]: the loop that fills [filtered_projects]. *)
Fixpoint filtered_projects (projects_ : list value) : result (list value) :=
  match projects_ with
  | [] => Val []
  | project :: rest =>
      label <~ py_get project "project_label" (JStr "") ;;
      project_label <~ py_lower label ;;
      name <~ py_get project "project_name" (JStr "") ;;
      project_name <~ py_lower name ;;
      kept <~ filtered_projects rest ;;
      if negb (String.eqb project_label "3decision") &&
         negb (String.eqb project_name "3decision")
      then Val (project :: kept)
      else Val kept
  end.

(** [load_project_structures_in_tab]: the [matrix] stored as
    [TRANSFORM_MATRIX] for the project structure [s]. *)
Definition TRANSFORM_MATRIX (s : value) : result value :=
  ref_transforms <~ py_get s "ReferenceTransforms" JNull ;;
  if truthy ref_transforms && is_dict ref_transforms then
    transform <~ py_get ref_transforms "transform" JNull ;;
    match transform with
    | JList t =>
        if truthy transform && (List.length t =? 16)%nat then
          Val (JList [JList (firstn 4 (skipn 0 t));
                      JList (firstn 4 (skipn 4 t));
                      JList (firstn 4 (skipn 8 t));
                      JList (firstn 4 (skipn 12 t))])
        else Val JNull
    | _ => Val JNull
    end
  else Val JNull.

Definition identity_matrix : list value :=
  [JFloat 1; JFloat 0; JFloat 0; JFloat 0;
   JFloat 0; JFloat 1; JFloat 0; JFloat 0;
   JFloat 0; JFloat 0; JFloat 1; JFloat 0;
   JFloat 0; JFloat 0; JFloat 0; JFloat 1].

(** [LoadStructureThread.run]: the [for row in matrix] loop;
    [None] is [flat_matrix = None] after [break]. *)
Fixpoint flat_matrix (rows : list value) (acc : list value) : option (list value) :=
  match rows with
  | [] => Some acc
  | row :: rest =>
      match row with
      | JList r => if (List.length r =? 4)%nat then flat_matrix rest (acc ++ r) else None
      | _ => None
      end
  end.

(** [LoadStructureThread.run]: the ["transform"] put into the export
    request for a structure whose [matrix] is [matrix]. *)
Definition transform_of_matrix (matrix : value) : list value :=
  if truthy matrix then
    match matrix with
    | JList rows =>
        if (List.length rows =? 4)%nat then
          match flat_matrix rows [] with
          | Some flat =>
              if truthy (JList flat) && (List.length flat =? 16)%nat
              then flat else identity_matrix
          | None => identity_matrix
          end
        else identity_matrix
    | _ => identity_matrix
    end
  else identity_matrix.

(** ** Module-level settings ([api_client.py]) *)

(** The values [_private_structure_naming_attribute] may take. *)
Definition naming_attributes : list string :=
  ["label"; "title"; "external_code"; "internal_id"].

(** [set_private_structure_naming_attribute(attribute)]: the value the
    module variable holds afterwards (its old value is not read). *)
Definition set_private_structure_naming_attribute (attribute : value) : string :=
  match attribute with
  | JStr s => if existsb (String.eqb s) naming_attributes then s else "label"
  | _ => "label"
  end.

(** ** The connection test of the settings dialog ([settings.py]) *)

(** What [ConnectionTestThread.run] passes to [test_completed.emit]. *)
Inductive test_completed : Type :=
| TestCompleted (success : bool) (message : string)
| TestCompletedError (e : exn).   (* [(False, f"Connection error: {str(e)}")] *)

(** [ConnectionTestThread.run]; the value returned is the signal it
    emits.  The old settings are put back field by field, not through
    [configure]. *)
Definition ConnectionTestThread_run (net : server) (base_url_ api_key_ : string)
    : M test_completed :=
  try_except
    (old_url <- gets base_url ;;
     old_key <- gets api_key ;;
     old_token <- gets token ;;
     configure base_url_ api_key_ ;;;
     success <- test_connection net ;;
     if success then ret (TestCompleted true "Connection successful!")
     else
       modify (fun w => mkWorld old_url old_key old_token (session_headers w) (trace w)) ;;;
       ret (TestCompleted false "Connection failed. Please check your URL and API key."))
    (fun e => ret (TestCompletedError e)).

(** ** Loading the selected structures ([gui.py]) *)

(** The decimal digits of [n >= 0] in front of [acc]; [fuel] bounds their
    number. *)
Fixpoint digits_of (fuel : nat) (n : Z) (acc : string) : string :=
  match fuel with
  | O => acc
  | S fuel' =>
      let acc' := String (ascii_of_nat (48 + Z.to_nat (n mod 10))) acc in
      if n <? 10 then acc' else digits_of fuel' (n / 10) acc'
  end.

(** [str(n)] for an integer [n]. *)
Definition str_int (n : Z) : string :=
  if n <? 0
  then String "-" (digits_of (S (Z.to_nat (Z.log2 (- n)))) (- n) "")
  else digits_of (S (Z.to_nat (Z.log2 n))) n "".

Section Rendering.

(** [str(v)] for the values whose rendering is not fixed here: floats,
    lists and dictionaries. *)
Variable py_repr : value -> string.

(** [str(v)] *)
Definition py_str_of (v : value) : string :=
  match v with
  | JNull => "None"
  | JBool true => "True"
  | JBool false => "False"
  | JInt n => str_int n
  | JStr s => s
  | _ => py_repr v
  end.

(** [load_selected_structures]: the [selected_structures] built from the
    selected rows of the results table.  A row is the item of its first
    column: [None] for an empty cell, else the item's [UserRole] data and
    its text. *)
Fixpoint selected_structures (rows : list (option (value * string))) : list value :=
  match rows with
  | [] => []
  | None :: rest => selected_structures rest
  | Some (structure_id, external_code) :: rest =>
      if truthy structure_id then
        JDict [("structure_id", JStr (py_str_of structure_id));
               ("external_code", JStr external_code)]
        :: selected_structures rest
      else selected_structures rest
  end.

(** [load_selected_project_structures]: the same for the project
    structures table, whose [UserRole] data is a dictionary with
    [structure_id] and [matrix] (or, in the old format, the id itself). *)
Fixpoint selected_project_structures (rows : list (option (value * string)))
    : list value :=
  match rows with
  | [] => []
  | None :: rest => selected_project_structures rest
  | Some (data, external_code) :: rest =>
      let structure_id :=
        match data with
        | JDict d => match lookup "structure_id" d with Some v => v | None => JNull end
        | _ => data
        end in
      let matrix :=
        match data with
        | JDict d => match lookup "matrix" d with Some v => v | None => JNull end
        | _ => JNull
        end in
      if truthy structure_id then
        JDict [("structure_id", JStr (py_str_of structure_id));
               ("external_code", JStr external_code);
               ("matrix", matrix)]
        :: selected_project_structures rest
      else selected_project_structures rest
  end.

End Rendering.

(** [LoadStructureThread.run]:
    [any(s.get('matrix') is not None for s in self.structure_data)] *)
Fixpoint has_matrices (structure_data : list value) : result bool :=
  match structure_data with
  | [] => Val false
  | s :: rest =>
      matrix <~ py_get s "matrix" JNull ;;
      match matrix with
      | JNull => has_matrices rest
      | _ => Val true
      end
  end.

(** [LoadStructureThread.run]: the loop that fills
    [structures_with_transforms] for the batch export. *)
Fixpoint structures_with_transforms (structure_data : list value) : result (list value) :=
  match structure_data with
  | [] => Val []
  | structure_info :: rest =>
      sid <~ py_getitem structure_info "structure_id" ;;
      structure_id <~ py_int sid ;;
      external_code <~ py_getitem structure_info "external_code" ;;
      matrix <~ py_get structure_info "matrix" JNull ;;
      tail <~ structures_with_transforms rest ;;
      Val (JDict [("structure_id", JInt structure_id);
                  ("external_code", external_code);
                  ("transform", JList (transform_of_matrix matrix))] :: tail)
  end.

(** ** Filtering the results table ([gui.py]) *)

(** A Python [float]. *)
Inductive pyfloat : Type :=
| Finite (q : Q)
| PosInf
| NegInf
| NaN.

(** [a < b] and [a <= b] on floats. *)
Definition float_lt (a b : pyfloat) : bool :=
  match a, b with
  | NaN, _ | _, NaN => false
  | Finite x, Finite y => negb (Qle_bool y x)
  | Finite _, PosInf => true
  | Finite _, NegInf => false
  | PosInf, _ => false
  | NegInf, NegInf => false
  | NegInf, _ => true
  end.

Definition float_le (a b : pyfloat) : bool :=
  match a, b with
  | NaN, _ | _, NaN => false
  | Finite x, Finite y => Qle_bool x y
  | Finite _, PosInf => true
  | Finite _, NegInf => false
  | PosInf, PosInf => true
  | PosInf, _ => false
  | NegInf, _ => true
  end.

(** A JSON number as the comparisons see it; other values are not ordered
    with a float. *)
Definition float_of (v : value) : result pyfloat :=
  match num_of v with
  | Some q => Val (Finite q)
  | None => Exc TypeError
  end.

(** A bound of the filter in a comparison: [None] is not ordered with a
    number. *)
Definition bound (b : option pyfloat) : result pyfloat :=
  match b with
  | Some f => Val f
  | None => Exc TypeError
  end.

(** The [operator] that [parse_resolution_filter] returns. *)
Inductive operator : Type :=
| op_range    (* ['range'] *)
| op_lt       (* ['<'] *)
| op_le       (* ['<='] *)
| op_gt       (* ['>'] *)
| op_ge       (* ['>='] *)
| op_eq.      (* ['='] *)

(** [s.split(c)] for a one-character separator. *)
Fixpoint split_char (c : ascii) (s : string) : list string :=
  match s with
  | EmptyString => [EmptyString]
  | String c' s' =>
      if Ascii.eqb c c' then EmptyString :: split_char c s'
      else match split_char c s' with
           | p :: ps => String c' p :: ps
           | [] => [String c' EmptyString]
           end
  end.

(** [s[n:]] *)
Fixpoint string_from (n : nat) (s : string) : string :=
  match n, s with
  | O, _ => s
  | S n', String _ s' => string_from n' s'
  | S _, EmptyString => EmptyString
  end.

(** The texts of the six filter boxes above the results table. *)
Record result_filters : Type := mkFilters {
  filter_external_code : string;
  filter_label : string;
  filter_title : string;
  filter_method : string;
  filter_resolution : string;
  filter_source : string
}.

Section Filters.

(** [float(s)]: [None] when it raises [ValueError]. *)
Variable py_float : string -> option pyfloat.

(** [abs(resolution - min_val) < 0.01], in floating point. *)
Variable within_tolerance : value -> option pyfloat -> result bool.

Definition no_filter : option pyfloat * option pyfloat * option operator :=
  (None, None, None).

(** [parse_resolution_filter]: [(min_value, max_value, operator)]. *)
Definition parse_resolution_filter (filter_text : string)
    : option pyfloat * option pyfloat * option operator :=
  if String.eqb filter_text "" then no_filter else
  let filter_text := strip filter_text in
  let as_range :=
    if has_char "-" filter_text && negb (startswith "-" filter_text) then
      match split_char "-" filter_text with
      | [part0; part1] =>
          Some (match py_float (strip part0) with
                | Some min_val =>
                    match py_float (strip part1) with
                    | Some max_val => (Some min_val, Some max_val, Some op_range)
                    | None => no_filter
                    end
                | None => no_filter
                end)
      | _ => None
      end
    else None in
  match as_range with
  | Some parsed => parsed
  | None =>
      if startswith "<=" filter_text then
        match py_float (strip (string_from 2 filter_text)) with
        | Some val => (None, Some val, Some op_le)
        | None => no_filter
        end
      else if startswith ">=" filter_text then
        match py_float (strip (string_from 2 filter_text)) with
        | Some val => (Some val, None, Some op_ge)
        | None => no_filter
        end
      else if startswith "<" filter_text then
        match py_float (strip (string_from 1 filter_text)) with
        | Some val => (None, Some val, Some op_lt)
        | None => no_filter
        end
      else if startswith ">" filter_text then
        match py_float (strip (string_from 1 filter_text)) with
        | Some val => (Some val, None, Some op_gt)
        | None => no_filter
        end
      else
        match py_float filter_text with
        | Some val => (Some val, Some val, Some op_eq)
        | None => no_filter
        end
  end.

(** [check_resolution_filter] *)
Definition check_resolution_filter (resolution : value)
    (min_val max_val : option pyfloat) (op : option operator) : result bool :=
  match resolution with
  | JNull => Val false
  | _ =>
      match op with
      | Some op_range =>
          lo <~ bound min_val ;;
          r <~ float_of resolution ;;
          if float_le lo r then
            hi <~ bound max_val ;; Val (float_le r hi)
          else Val false
      | Some op_lt =>
          r <~ float_of resolution ;; hi <~ bound max_val ;; Val (float_lt r hi)
      | Some op_le =>
          r <~ float_of resolution ;; hi <~ bound max_val ;; Val (float_le r hi)
      | Some op_gt =>
          r <~ float_of resolution ;; lo <~ bound min_val ;; Val (float_lt lo r)
      | Some op_ge =>
          r <~ float_of resolution ;; lo <~ bound min_val ;; Val (float_le lo r)
      | Some op_eq => within_tolerance resolution min_val
      | None => Val true
      end
  end.

(** [not (filter and filter not in general.get(key, '').lower())]: the
    structure passes the text filter of one column. *)
Definition passes_text (filter_ : string) (general : value) (key : string) : result bool :=
  if String.eqb filter_ "" then Val true else
  field <~ py_get general key (JStr "") ;;
  lowered <~ py_lower field ;;
  Val (is_substring filter_ lowered).

(** The [for structure in self.all_results] loop of [apply_filters]. *)
Fixpoint filtered_structures (filter_ext_code filter_lbl filter_ttl filter_mth
    filter_res filter_src : string)
    (res : option pyfloat * option pyfloat * option operator)
    (all_results : list value) : result (list value) :=
  match all_results with
  | [] => Val []
  | structure :: rest =>
      let skip := filtered_structures filter_ext_code filter_lbl filter_ttl filter_mth
                    filter_res filter_src res rest in
      general <~ py_get structure "general" (JDict []) ;;
      p1 <~ passes_text filter_ext_code general "external_code" ;;
      if negb p1 then skip else
      p2 <~ passes_text filter_lbl general "label" ;;
      if negb p2 then skip else
      p3 <~ passes_text filter_ttl general "title" ;;
      if negb p3 then skip else
      p4 <~ passes_text filter_mth general "method" ;;
      if negb p4 then skip else
      p5 <~ passes_text filter_src general "source" ;;
      if negb p5 then skip else
      p6 <~ (if String.eqb filter_res "" then Val true else
             resolution <~ py_get general "resolution" JNull ;;
             let '(res_min, res_max, res_operator) := res in
             check_resolution_filter resolution res_min res_max res_operator) ;;
      if negb p6 then skip else
      kept <~ skip ;;
      Val (structure :: kept)
  end.

(** [apply_filters]: the structures handed to [populate_results_table];
    [None] when it returns at once, leaving the table as it is. *)
Definition apply_filters (f : result_filters) (all_results : list value)
    : result (option (list value)) :=
  match all_results with
  | [] => Val None
  | _ =>
      let filter_res := strip (filter_resolution f) in
      shown <~ filtered_structures
                 (lower (strip (filter_external_code f)))
                 (lower (strip (filter_label f)))
                 (lower (strip (filter_title f)))
                 (lower (strip (filter_method f)))
                 filter_res
                 (lower (strip (filter_source f)))
                 (parse_resolution_filter filter_res)
                 all_results ;;
      Val (Some shown)
  end.

End Filters.

(** * Vocabulary of the statements and concrete scenarios *)

(** The request a call of [send] puts on the wire in world [w]. *)
Definition sent (method : http_method) (u : url) (h : headers)
    (json_data : option value) (params : list (string * value)) (w : world) : request :=
  mkRequest method u (merge_headers (session_headers w) h)
            (match method with GET => None | _ => json_data end) params.

Definition login_request (w : world) : request :=
  sent GET (Url (base_url w) auth_api_login) (mkHeaders None (api_key w)) None [] w.








Definition count (p : event -> bool) (l : list event) : nat :=
  List.length (filter p l).

Definition is_request_event (e : event) : bool :=
  match e with EvRequest _ => true | _ => false end.

(** A response with a JSON body, and one with a text body. *)
Definition json_response (status : Z) (body : value) : Response :=
  mkResponse status "" (Some body) (mkBytes "" None).

Definition text_response (status : Z) (body : string) : Response :=
  mkResponse status body None (mkBytes body None).

(** A configured client holding the token ["tok"], nothing sent yet. *)
Definition w_ready : world :=
  mkWorld (Some "http://host") (Some "key") (JStr "tok")
          (mkHeaders (Some (JStr "tok")) None) [].



(** A record as the deduplication loop reads it: its [structure_id],
    [None] when the key is missing. *)
Definition structure_id_of (structure : value) : result value :=
  py_get structure "structure_id" JNull.

(** The record is a dictionary whose [structure_id] is missing, null or
    otherwise falsy. *)
Definition has_falsy_id (structure : value) : bool :=
  match structure_id_of structure with
  | Val sid => negb (truthy sid)
  | Exc _ => false
  end.

(** The record is a dictionary with a truthy [structure_id]. *)
Definition has_truthy_id (structure : value) : bool :=
  match structure_id_of structure with
  | Val sid => truthy sid
  | Exc _ => false
  end.

(** Two records carry the same [structure_id] (as [set] membership
    compares them). *)
Definition same_id (a b : value) : bool :=
  match structure_id_of a, structure_id_of b with
  | Val x, Val y => key_eqb x y
  | _, _ => false
  end.

(** No two records of the list carry the same [structure_id]. *)
Fixpoint distinct_ids (l : list value) : bool :=
  match l with
  | [] => true
  | x :: r => negb (existsb (same_id x) r) && distinct_ids r
  end.

(** No two of the requested ids are equal. *)
Fixpoint distinct_keys (l : list value) : bool :=
  match l with
  | [] => true
  | x :: r => negb (existsb (key_eqb x) r) && distinct_keys r
  end.

(** The record's [structure_id] is one of [ids]. *)
Definition id_among (ids : list value) (structure : value) : bool :=
  match structure_id_of structure with
  | Val sid => existsb (key_eqb sid) ids
  | Exc _ => false
  end.

(** The batched calls the specification asks for: one
    [_fetch_structures_batch] per chunk, in order, results concatenated
    after [acc]. *)
Fixpoint fetch_chunks (net : server) (chunks : list (list value)) (acc : list value)
    : M (list value) :=
  match chunks with
  | [] => ret acc
  | c :: chunks' =>
      r <- _fetch_structures_batch net (JList c) ;;
      fetch_chunks net chunks' (acc ++ r)
  end.

(** The consecutive chunks of at most [k] ids of a list ([fuel] bounds
    their number). *)
Fixpoint chunks_fuel (fuel k : nat) (l : list value) : list (list value) :=
  match fuel with
  | O => []
  | S fuel' =>
      match l with
      | [] => []
      | _ => firstn k l :: chunks_fuel fuel' k (skipn k l)
      end
  end.

Definition chunks (k : nat) (l : list value) : list (list value) :=
  chunks_fuel (List.length l) k l.

(** A server that answers a GraphQL batch only with records of the
    requested structures: every record in [data.getStructuresInfo] of a
    response to a request for [ids] carries one of [ids]. *)
Definition answers_requested_only (net : server) : Prop :=
  forall tr req r ids data batch_results items,
    net tr req = Val r ->
    r_json req = Some (graphql_payload (JList ids)) ->
    json r = Some data ->
    batch_results_of data = Val (Some batch_results) ->
    py_iter batch_results = Val items ->
    forall s, In s items -> has_truthy_id s = true -> id_among ids s = true.

(** A server that answers a GraphQL batch with one record per requested
    integer id, in order. *)
Definition echo_record (id : value) : list value :=
  match id with
  | JInt k => [JDict [("structure_id", JInt k)]]
  | _ => []
  end.

Definition net_echo : server :=
  fun _ req =>
    match r_json req with
    | Some (JDict [(_, _); (_, JDict [(_, JList ids)])]) =>
        Val (json_response 200
               (JDict [("data",
                        JDict [("getStructuresInfo",
                                JList (flat_map echo_record ids))])]))
    | _ => Val (json_response 404 JNull)
    end.

(** 501 ids: 1 to 500, then 1 again. *)
Definition ids_501 : list value :=
  map (fun k => JInt (Z.of_nat k)) (seq 1 500) ++ [JInt 1].

(** 501 different ids: 1 to 501. *)
Definition ids_1_to_501 : list value :=
  map (fun k => JInt (Z.of_nat k)) (seq 1 501).

(** The world [w] after the events [l]. *)
Definition extend (l : list event) (w : world) : world :=
  mkWorld (base_url w) (api_key w) (token w) (session_headers w) (trace w ++ l).

(** The poll of the domain event [id] as the polling loops send it. *)
Definition poll_request (id : string) (w : world) : request :=
  sent GET (Url (base_url w) (domain_events id)) (with_token (token w) no_headers) None [] w.

(** The server answers every poll of the domain event [id] with status
    200 or 201 and a JSON object whose [state] is neither ['success'] nor
    ['failed']. *)
Definition always_pending (net : server) (id : string) : Prop :=
  forall tr req b,
    r_url req = Url b (domain_events id) ->
    exists r data state,
      net tr req = Val r /\ ok_status (status_code r) = true /\
      json r = Some data /\ py_get data "state" JNull = Val state /\
      py_eq_str state "success" = false /\ py_eq_str state "failed" = false.

(** [n] polls, each followed by a sleep of two seconds. *)
Fixpoint polls_then_sleeps (req : request) (n : nat) : list event :=
  match n with
  | O => []
  | S n' => EvRequest req :: EvSleep 2000 :: polls_then_sleeps req n'
  end.

(** [n] polls with a sleep of two seconds between consecutive ones. *)
Fixpoint polls_with_sleeps_between (req : request) (n : nat) : list event :=
  match n with
  | O => []
  | S n' =>
      EvRequest req ::
      match n' with
      | O => []
      | S _ => EvSleep 2000 :: polls_with_sleeps_between req n'
      end
  end.

Definition is_poll_event (id : string) (e : event) : bool :=
  match e with
  | EvRequest r =>
      match r_url r with
      | Url _ (domain_events id') => String.eqb id id'
      | _ => false
      end
  | _ => false
  end.

Definition is_sleep_event (e : event) : bool :=
  match e with EvSleep 2000 => true | _ => false end.

Definition is_download_event (e : event) : bool :=
  match e with
  | EvRequest r =>
      match r_url r with
      | Url _ (exports_structure_download _ _) => true
      | _ => false
      end
  | _ => false
  end.

(** The export request was accepted: status 200 or 201 and a non-empty
    domain event id [id] as the body. *)
Definition accepted (r : Response) (id : string) : Prop :=
  ok_status (status_code r) = true /\ strip (text r) = id /\ id <> "".

(** The export requests of the three flows, as [_request_with_retry]
    is called for them in world [w]. *)
Definition submit_pdb (net : server) (n : Z) (w : world) :=
  _request_with_retry net POST (Url (base_url w) exports_structure) no_headers
    (Some (JDict [("structures_id", JList [JInt n])]))
    [("output_format", JStr "structures-pdb-txt")] w.

Definition submit_zip (net : server) (structure_ids : list value)
    (matrices : option (list value)) (w : world) :=
  _request_with_retry net POST (Url (base_url w) exports_structure)
    (mkHeaders (Some (token w)) None)
    (Some (JDict (("structures_id", JList structure_ids) ::
                  match matrices with
                  | Some (m :: ms) => [("matrix", JList (m :: ms))]
                  | _ => []
                  end)))
    [("output_format", JStr "structures-pdb-zip")] w.

Definition submit_transformed (net : server) (codes matrix : list value) (w : world) :=
  _request_with_retry net POST (Url (base_url w) exports_structure) no_headers
    (Some (JDict [("external_codes", JList codes); ("matrix", JList matrix)]))
    [("output_format", JStr "structures-pdb-txt")] w.

(** A server whose exports never finish: every export request is
    accepted as domain event ["ev1"], every poll answers
    [{"state": "pending"}]. *)
Definition net_pending : server :=
  fun _ req =>
    match r_url req with
    | Url _ exports_structure => Val (text_response 200 "ev1")
    | Url _ (domain_events _) => Val (json_response 200 (JDict [("state", JStr "pending")]))
    | _ => Val (json_response 404 JNull)
    end.

(** [content.errors.not_exported] of a domain event, with the defaults
    the polling loops give the three lookups. *)
Definition not_exported_of (domain_data : value) : result value :=
  content_ <~ py_get domain_data "content" (JDict []) ;;
  errors <~ py_get content_ "errors" (JDict []) ;;
  py_get errors "not_exported" (JList []).

(** The domain event reports [state == 'success'] together with a
    non-empty (truthy) [content.errors.not_exported]. *)
Definition reports_not_exported (domain_data : value) : Prop :=
  exists state not_exported,
    py_get domain_data "state" JNull = Val state /\
    py_eq_str state "success" = true /\
    not_exported_of domain_data = Val not_exported /\
    truthy not_exported = true.

(** The domain event is still pending. *)
Definition reports_pending (domain_data : value) : Prop :=
  exists state,
    py_get domain_data "state" JNull = Val state /\
    py_eq_str state "success" = false /\ py_eq_str state "failed" = false.

(** Polling the domain event [id] from world [w] on: the first [k] polls
    are answered as pending, the next one as a success that lists
    structures as not exported (all with status 200 or 201). *)
Fixpoint reaches_not_exported (net : server) (id : string) (k : nat) (w : world) : Prop :=
  exists r data,
    net (trace w) (poll_request id w) = Val r /\
    ok_status (status_code r) = true /\
    json r = Some data /\
    match k with
    | O => reports_not_exported data
    | S k' =>
        reports_pending data /\
        reaches_not_exported net id k'
          (extend [EvRequest (poll_request id w); EvSleep 2000] w)
    end.

(** The outcome is a failure: [None], possibly by way of an exception
    that the operation's [except Exception] turns into [None]. *)
Definition fails {A} (res : result (option A)) : Prop :=
  res = Val None \/ exists e, res = Exc e.

(** A server on which the export of two structures succeeds for one only:
    the second poll reports success with one structure not exported. *)
Definition net_partial : server :=
  fun tr req =>
    match r_url req with
    | Url _ exports_structure => Val (text_response 200 "ev1")
    | Url _ (domain_events _) =>
        if (count is_request_event tr <? 2)%nat
        then Val (json_response 200 (JDict [("state", JStr "pending")]))
        else Val (json_response 200
               (JDict [("state", JStr "success");
                       ("content",
                        JDict [("file_names",
                                JList [JDict [("file_name", JStr "export.zip");
                                              ("external_code", JStr "1abc")]]);
                               ("errors",
                                JDict [("not_exported",
                                        JList [JDict [("external_code", JStr "2xyz");
                                                      ("error_message", JStr "no coordinates")]])])])]))
    | _ => Val (mkResponse 200 "ATOM" None (mkBytes "PK" (Some [("1abc.pdb", Val "ATOM")])))
    end.

(** [str] on the values the scenarios format, which are strings. *)
Definition str_of_string (v : value) : string :=
  match v with JStr s => s | _ => "" end.

(** Two structures to export, each with the identity transform. *)
Definition two_structures : list value :=
  [JDict [("structure_id", JInt 1); ("external_code", JStr "1abc");
          ("transform", JList identity_matrix)];
   JDict [("structure_id", JInt 2); ("external_code", JStr "2xyz");
          ("transform", JList identity_matrix)]].


(** [pdb_filename.split('/')[-1]] *)
Definition base_filename (pdb_filename : string) : string :=
  after_last "/" pdb_filename.










(** The four rows [t[0:4]], [t[4:8]], [t[8:12]], [t[12:16]]. *)
Definition rows_of (t : list value) : list value :=
  [JList (firstn 4 (skipn 0 t)); JList (firstn 4 (skipn 4 t));
   JList (firstn 4 (skipn 8 t)); JList (firstn 4 (skipn 12 t))].

(** A project structure whose [ReferenceTransforms.transform] is the
    flat list [t]. *)
Definition carries_transform (s : value) (t : list value) : Prop :=
  exists ref,
    py_get s "ReferenceTransforms" JNull = Val (JDict ref) /\
    lookup "transform" ref = Some (JList t).

(** A project's label and name as the filter compares them: lower-cased,
    [''] when the key is missing. *)
Definition lowered (project : value) (key : string) : result string :=
  v <~ py_get project key (JStr "") ;; py_lower v.

(** The project is filtered out: its lower-cased label or name is
    ["3decision"]. *)
Definition is_3decision (project : value) : bool :=
  match lowered project "project_label", lowered project "project_name" with
  | Val l, Val n => String.eqb l "3decision" || String.eqb n "3decision"
  | _, _ => false
  end.

(** The project is a dictionary whose label and name, when present, are
    strings. *)
Definition labelled (project : value) : Prop :=
  (exists l, lowered project "project_label" = Val l) /\
  (exists n, lowered project "project_name" = Val n).



(** A search whose job "42" is at progress 0 for the first two polls
    and then completes at progress 100 with an empty [STRUCTURE_ID] list. *)
Definition net_no_results : server :=
  fun tr req =>
    match r_url req with
    | Url _ (search _) => Val (json_response 200 (JDict [("id", JStr "42")]))
    | Url _ (queues_jobs _ _) =>
        if (count is_request_event tr <? 3)%nat
        then Val (json_response 200 (JDict [("progress", JInt 0); ("status", JStr "active")]))
        else Val (json_response 200
               (JDict [("progress", JInt 100); ("status", JStr "completed");
                       ("returnvalue", JDict [("STRUCTURE_ID", JList [])])]))
    | _ => Val (json_response 404 JNull)
    end.



(** The signals in a trace, in order. *)
Fixpoint signals (l : list event) : list signal :=
  match l with
  | [] => []
  | EvEmit s :: l' => s :: signals l'
  | _ :: l' => signals l'
  end.

(** * Properties *)

Example strip_ex : strip "  ev1 
" = "ev1".
Proof. reflexivity. Qed.
Example after_last_ex : after_last "/" "a/b/x.pdb" = "x.pdb" /\ after_last "/" "x.pdb" = "x.pdb" /\ after_last "/" "a/" = "".
Proof. repeat split. Qed.
Example before_last_ex : before_last "." "a.b.pdb" = "a.b" /\ before_last "." ".pdb" = "".
Proof. repeat split. Qed.
Example endswith_ex : endswith ".pdb" "x.pdb" = true /\ endswith ".pdb" "pdb" = false.
Proof. repeat split. Qed.

(** ** Session/Transport *)

Ltac unfold_m :=
  unfold bind, ret, raise, try_except, lift, gets, modify, sleep, save_config,
         response_json in *.

Lemma send_run net method u h jd ps w :
  method = GET \/ method = POST ->
  send net method u h jd ps w =
  (net (trace w) (sent method u h jd ps w),
   add_event (EvRequest (sent method u h jd ps w)) w).
Proof. intros [-> | ->]; reflexivity. Qed.

(** [login] never raises, sends at most one request (to the login
    endpoint) and, when it succeeds, leaves a truthy token installed as the
    session's bearer header. *)
Lemma login_cases net w :
  exists ok w',
    login net w = (Val ok, w') /\
    base_url w' = base_url w /\ api_key w' = api_key w /\
    (trace w' = trace w \/
     trace w' = trace w ++ [EvRequest (login_request w)] \/
     trace w' = trace w ++ [EvRequest (login_request w); EvSaveConfig]) /\
    (ok = true ->
     is_configured w = true /\
     truthy (token w') = true /\
     Authorization (session_headers w') = Some (token w') /\
     trace w' = trace w ++ [EvRequest (login_request w); EvSaveConfig]).
Proof.
  remember (login_request w) as lr eqn:Hlr.
  unfold login_request, sent in Hlr.
  unfold login, session_get, session_send. unfold_m.
  destruct (is_configured w) eqn:Hc; simpl.
  2:{ exists false, w. repeat split; auto; discriminate. }
  rewrite <- Hlr. clear Hlr.
  assert (Hfail : forall tk sh,
    exists ok w',
      (Val false, mkWorld (base_url w) (api_key w) tk sh
                          (trace w ++ [EvRequest lr])) = (Val ok, w') /\
      base_url w' = base_url w /\ api_key w' = api_key w /\
      (trace w' = trace w \/
       trace w' = trace w ++ [EvRequest lr] \/
       trace w' = trace w ++ [EvRequest lr; EvSaveConfig]) /\
      (ok = true ->
       true = true /\ truthy (token w') = true /\
       Authorization (session_headers w') = Some (token w') /\
       trace w' = trace w ++ [EvRequest lr; EvSaveConfig])).
  { intros. do 2 eexists. split; [reflexivity|]. simpl.
    repeat split; auto; discriminate. }
  destruct (net (trace w) lr) as [r|e]; simpl; [|apply Hfail].
  destruct (ok_status (status_code r)); simpl; [|apply Hfail].
  destruct (json r) as [data|]; simpl; [|apply Hfail].
  destruct (py_get data "access_token" JNull) as [t|e] eqn:Hg; simpl; [|apply Hfail].
  destruct (truthy t) eqn:Ht; simpl; [|apply Hfail].
  do 2 eexists. split; [reflexivity|]. simpl.
  rewrite <- app_assoc. simpl. repeat split; auto.
Qed.



Lemma count_app p l1 l2 : count p (l1 ++ l2) = (count p l1 + count p l2)%nat.
Proof. unfold count. rewrite filter_app, length_app. reflexivity. Qed.


(** Without an authentication failure the call is the single request. *)
Lemma request_with_retry_plain net m u h jd ps w r :
  m = GET \/ m = POST ->
  net (trace w) (sent m u (with_token (token w) h) jd ps w) = Val r ->
  auth_failed (status_code r) = false ->
  _request_with_retry net m u h jd ps w =
  (Val (Some r), add_event (EvRequest (sent m u (with_token (token w) h) jd ps w)) w).
Proof.
  intros Hm Hnet Hst.
  assert (Hb :
    (response <- send net m u (with_token (token w) h) jd ps ;;
     if auth_failed (status_code response) then
       modify clear_token ;;;
       ok <- login net ;;
       if ok then
         t' <- gets token ;;
         response' <- send net m u
             (mkHeaders (Some t') (Dng_Api_Key (with_token (token w) h))) jd ps ;;
         ret (Some response')
       else ret None
     else ret (Some response)) w =
    (Val (Some r), add_event (EvRequest (sent m u (with_token (token w) h) jd ps w)) w)).
  { unfold bind at 1. rewrite (send_run _ _ _ _ _ _ _ Hm), Hnet, Hst. reflexivity. }
  destruct Hm as [-> | ->]; exact Hb.
Qed.






(** ** Reasoning about computations in [M] *)

Lemma bind_val_inv {A B} (c : M A) (k : A -> M B) w b w' :
  bind c k w = (Val b, w') ->
  exists a w1, c w = (Val a, w1) /\ k a w1 = (Val b, w').
Proof.
  unfold bind. destruct (c w) as [[a|e] w1]; intros H.
  - exists a, w1. auto.
  - discriminate.
Qed.

Lemma try_except_val_inv {A} (body : M A) (handler : exn -> M A) w a w' :
  try_except body handler w = (Val a, w') ->
  body w = (Val a, w') \/ exists e w1, body w = (Exc e, w1) /\ handler e w1 = (Val a, w').
Proof.
  unfold try_except. destruct (body w) as [[x|e] w1]; intros H.
  - left. exact H.
  - right. exists e, w1. auto.
Qed.

(** A [try] whose handler returns a value never raises. *)
Lemma try_except_returns {A} (body : M A) (d : A) w :
  exists a w', try_except body (fun _ => ret d) w = (Val a, w').
Proof.
  unfold try_except, ret. destruct (body w) as [[x|e] w1]; eauto.
Qed.

Lemma lift_val_inv {A} (r : result A) w a w' :
  lift r w = (Val a, w') -> r = Val a /\ w' = w.
Proof. unfold lift. intros H. inversion H. auto. Qed.

Lemma ret_inv {A} (x : A) w a w' :
  ret x w = (Val a, w') -> a = x /\ w' = w.
Proof. unfold ret. intros H. inversion H. auto. Qed.

Lemma gets_inv {A} (f : world -> A) w a w' :
  gets f w = (Val a, w') -> a = f w /\ w' = w.
Proof. unfold gets. intros H. inversion H. auto. Qed.

Ltac inv_m :=
  repeat match goal with
  | H : bind _ _ _ = (Val _, _) |- _ =>
      let a := fresh "a" in
      let w := fresh "w" in
      let Ha := fresh "Ha" in
      apply bind_val_inv in H; destruct H as (a & w & Ha & H)
  | H : lift _ _ = (Val _, _) |- _ =>
      let E := fresh "E" in
      apply lift_val_inv in H; destruct H as [E ?]; subst
  | H : ret _ _ = (Val _, _) |- _ =>
      apply ret_inv in H; destruct H as [? ?]; subst
  | H : gets _ _ = (Val _, _) |- _ =>
      apply gets_inv in H; destruct H as [? ?]; subst
  | H : response_json _ _ = (Val _, _) |- _ => unfold response_json in H
  end.

Ltac break_in H :=
  match type of H with
  | context [match ?x with _ => _ end] => destruct x eqn:?
  end.

(** ** Structure Info Resolver *)

Lemma unique_structures_truthy batch_results :
  forall seen out,
    unique_structures batch_results seen = Val out ->
    Forall (fun s => has_truthy_id s = true) out.
Proof.
  induction batch_results as [|structure rest IH]; intros seen out H; simpl in H.
  - inversion H. constructor.
  - destruct (py_get structure "structure_id" JNull) as [sid|e] eqn:Hg; [|discriminate].
    destruct (truthy sid) eqn:Ht.
    + destruct (set_mem sid seen) as [[|]|e]; [ | |discriminate].
      * eapply IH; eauto.
      * destruct (unique_structures rest (sid :: seen)) as [u|e] eqn:Hu; [|discriminate].
        inversion H; subst. constructor.
        -- unfold has_truthy_id, structure_id_of. rewrite Hg. exact Ht.
        -- eapply IH; eauto.
    + eapply IH; eauto.
Qed.

Lemma has_falsy_not_truthy s : has_falsy_id s = true -> has_truthy_id s = false.
Proof.
  unfold has_falsy_id, has_truthy_id. destruct (structure_id_of s); [|discriminate].
  destruct (truthy a); simpl; congruence.
Qed.

Lemma fetch_structures_batch_returns net ids w :
  exists out w',
    _fetch_structures_batch net ids w = (Val out, w') /\
    Forall (fun s => has_truthy_id s = true) out.
Proof.
  unfold _fetch_structures_batch.
  destruct (try_except_returns
    (b <- gets base_url ;;
     _ <- lift (py_len ids) ;;
     response <- _request_with_retry net POST (Url b graphql) no_headers
                   (Some (graphql_payload ids)) [] ;;
     match response with
     | None => ret []
     | Some response =>
         if ok_status (status_code response) then
           data <- response_json response ;;
           found <- lift (batch_results_of data) ;;
           match found with
           | Some batch_results =>
               items <- lift (py_iter batch_results) ;;
               lift (unique_structures items [])
           | None => ret []
           end
         else ret []
     end) [] w) as (out & w' & Hrun).
  exists out, w'. split; [exact Hrun|].
  apply try_except_val_inv in Hrun. destruct Hrun as [Hb | (e & w1 & _ & Hh)].
  - inv_m. break_in Hb; [break_in Hb|]; inv_m; try (constructor; fail).
    break_in Hb; inv_m; try (constructor; fail).
    eapply unique_structures_truthy; eauto.
  - inv_m. constructor.
Qed.

Lemma login_returns net w : exists ok w', login net w = (Val ok, w').
Proof. destruct (login_cases net w) as (ok & w' & H & _). eauto. Qed.

Lemma test_connection_returns net w :
  exists ok w', test_connection net w = (Val ok, w').
Proof.
  unfold test_connection, bind, gets, ret.
  destruct (negb (is_configured w)); [eauto|].
  destruct (truthy (token w) && _); [eauto|].
  apply login_returns.
Qed.


Lemma fetch_batches_truthy net ids starts :
  forall acc w out w',
    Forall (fun s => has_truthy_id s = true) acc ->
    fetch_batches net ids starts acc w = (Val out, w') ->
    Forall (fun s => has_truthy_id s = true) out.
Proof.
  induction starts as [|i starts IH]; intros acc w out w' Hacc H; simpl in H.
  - inv_m. exact Hacc.
  - inv_m.
    match goal with
    | Hf : _fetch_structures_batch net ?b ?w0 = (Val ?r, _) |- _ =>
        destruct (fetch_structures_batch_returns net b w0) as (o & wo & Ho & HQ);
        rewrite Ho in Hf; inversion Hf; subst
    end.
    eapply IH; [|exact H]. apply Forall_app. split; assumption.
Qed.

Lemma get_structures_info_returns net ids w :
  exists out w',
    get_structures_info net ids w = (Val out, w') /\
    Forall (fun s => has_truthy_id s = true) out.
Proof.
  unfold get_structures_info. unfold bind at 1.
  destruct (test_connection_returns net w) as (ok & w1 & Ht). rewrite Ht.
  destruct ok; simpl.
  2:{ exists [], w1. split; [reflexivity | constructor]. }
  match goal with
  | |- context [try_except ?body _ w1] =>
      destruct (try_except_returns body [] w1) as (out & w' & Hrun)
  end.
  exists out, w'. split; [exact Hrun|].
  apply try_except_val_inv in Hrun. destruct Hrun as [Hb | (e & w2 & _ & Hh)].
  - inv_m. break_in Hb.
    + eapply fetch_batches_truthy; [|exact Hb]. constructor.
    + destruct (fetch_structures_batch_returns net ids w1) as (o & wo & Ho & HQ).
      rewrite Ho in Hb. inversion Hb; subst. exact HQ.
  - inv_m. constructor.
Qed.

(** C10.  A record whose [structure_id] is missing, null or otherwise
    falsy is skipped by the deduplication loop without any other effect,
    and no such record is ever among the records that
    [_fetch_structures_batch] or [get_structures_info] return (both of
    which always return). *)
Theorem falsy_structure_id_is_dropped :
  (forall structure rest seen,
      has_falsy_id structure = true ->
      unique_structures (structure :: rest) seen = unique_structures rest seen) /\
  (forall net ids w,
      exists out w',
        _fetch_structures_batch net ids w = (Val out, w') /\
        forall s, In s out -> has_falsy_id s = false) /\
  (forall net ids w,
      exists out w',
        get_structures_info net ids w = (Val out, w') /\
        forall s, In s out -> has_falsy_id s = false).
Proof.
  assert (Hno : forall out, Forall (fun s => has_truthy_id s = true) out ->
                  forall s, In s out -> has_falsy_id s = false).
  { intros out HQ s Hin. rewrite Forall_forall in HQ. specialize (HQ s Hin).
    destruct (has_falsy_id s) eqn:Hf; [|reflexivity].
    apply has_falsy_not_truthy in Hf. congruence. }
  split; [|split].
  - intros structure rest seen Hf. unfold has_falsy_id, structure_id_of in Hf.
    simpl. destruct (py_get structure "structure_id" JNull) as [sid|e]; [|discriminate].
    destruct (truthy sid); [discriminate | reflexivity].
  - intros net ids w.
    destruct (fetch_structures_batch_returns net ids w) as (out & w' & Hrun & HQ).
    exists out, w'. split; [exact Hrun | apply Hno; exact HQ].
  - intros net ids w.
    destruct (get_structures_info_returns net ids w) as (out & w' & Hrun & HQ).
    exists out, w'. split; [exact Hrun | apply Hno; exact HQ].
Qed.

Lemma falsy_structure_id_is_dropped_witness :
  unique_structures [JDict [("structure_id", JInt 0)]; JDict [("structure_id", JInt 5)]] [] =
  unique_structures [JDict [("structure_id", JInt 5)]] [].
Proof. apply (proj1 falsy_structure_id_is_dropped). reflexivity. Defined.

Lemma Qeq_bool_sym x y : Qeq_bool x y = Qeq_bool y x.
Proof.
  destruct (Qeq_bool x y) eqn:H1, (Qeq_bool y x) eqn:H2; try reflexivity.
  - apply Qeq_bool_iff in H1. symmetry in H1. apply Qeq_bool_iff in H1. congruence.
  - apply Qeq_bool_iff in H2. symmetry in H2. apply Qeq_bool_iff in H2. congruence.
Qed.

Lemma Qeq_bool_trans x y z :
  Qeq_bool x y = true -> Qeq_bool y z = true -> Qeq_bool x z = true.
Proof.
  rewrite !Qeq_bool_iff. intros H1 H2. rewrite H1. exact H2.
Qed.

Lemma key_eqb_sym a b : key_eqb a b = key_eqb b a.
Proof.
  unfold key_eqb.
  destruct (num_of a) eqn:Ha, (num_of b) eqn:Hb; try reflexivity.
  - apply Qeq_bool_sym.
  - destruct a, b; try reflexivity; try discriminate. apply String.eqb_sym.
Qed.

Lemma key_eqb_trans a b c :
  key_eqb a b = true -> key_eqb b c = true -> key_eqb a c = true.
Proof.
  unfold key_eqb.
  destruct (num_of a) eqn:Ha, (num_of b) eqn:Hb, (num_of c) eqn:Hc;
    try discriminate.
  - apply Qeq_bool_trans.
  - destruct a, b, c; try discriminate; try reflexivity.
    intros H1 H2. apply String.eqb_eq in H1, H2. subst. apply String.eqb_refl.
Qed.

(** Within one batch the records returned carry pairwise different ids,
    none of which is in [seen]. *)
Lemma unique_structures_distinct batch_results :
  forall seen out,
    unique_structures batch_results seen = Val out ->
    distinct_ids out = true /\
    forall s sid k, In s out -> structure_id_of s = Val sid -> In k seen ->
                    key_eqb sid k = false.
Proof.
  induction batch_results as [|structure rest IH]; intros seen out H; simpl in H.
  - inversion H; subst. split; [reflexivity | intros ? ? ? []].
  - destruct (py_get structure "structure_id" JNull) as [sid|e] eqn:Hg; [|discriminate].
    destruct (truthy sid) eqn:Ht; [|eapply IH; eauto].
    unfold set_mem in H. destruct (hashable sid); [|discriminate].
    destruct (existsb (key_eqb sid) seen) eqn:Hmem; [eapply IH; eauto|].
    destruct (unique_structures rest (sid :: seen)) as [u|e] eqn:Hu; [|discriminate].
    inversion H; subst. destruct (IH _ _ Hu) as [Hd Hs].
    split.
    + simpl. rewrite Hd, andb_true_r.
      destruct (existsb (same_id structure) u) eqn:Hex; [|reflexivity].
      apply existsb_exists in Hex. destruct Hex as (y & Hy & Hsame).
      unfold same_id, structure_id_of in Hsame. rewrite Hg in Hsame.
      destruct (py_get y "structure_id" JNull) as [yid|] eqn:Hyid; [|discriminate].
      rewrite key_eqb_sym in Hsame.
      rewrite (Hs y yid sid Hy Hyid (or_introl eq_refl)) in Hsame. discriminate.
    + intros s sid' k [<- | Hin] Hsid Hk.
      * unfold structure_id_of in Hsid. rewrite Hg in Hsid. inversion Hsid; subst.
        destruct (key_eqb sid' k) eqn:Hk'; [|reflexivity].
        assert (existsb (key_eqb sid') seen = true)
          by (apply existsb_exists; eauto).
        congruence.
      * eapply Hs; eauto. right. exact Hk.
Qed.

Lemma chunk_count_step n :
  (1 <= n)%nat -> ((n + 499) / 500 = S ((n - 500 + 499) / 500))%nat.
Proof.
  intros Hn. destruct (Nat.le_gt_cases n 500) as [Hle | Hgt].
  - replace (n - 500)%nat with 0%nat by lia. simpl Nat.add at 2.
    rewrite (Nat.div_small 499 500) by lia.
    symmetry. apply (Nat.div_unique (n + 499) 500 1 (n - 1)); lia.
  - replace (n + 499)%nat with ((n - 500 + 499) + 1 * 500)%nat by lia.
    rewrite Nat.div_add by lia. lia.
Qed.

Lemma chunks_fuel_cons fuel k x l :
  chunks_fuel (S fuel) k (x :: l) =
  firstn k (x :: l) :: chunks_fuel fuel k (skipn k (x :: l)).
Proof. reflexivity. Qed.

Lemma chunks_fuel_starts fuel :
  forall l,
    (List.length l <= fuel)%nat ->
    chunks_fuel fuel 500 l =
    map (fun j => firstn 500 (skipn (500 * j) l))
        (seq 0 ((List.length l + 499) / 500)).
Proof.
  induction fuel as [|fuel IH]; intros l Hl.
  - destruct l; [reflexivity | simpl in Hl; lia].
  - destruct l as [|x l']; [reflexivity|].
    rewrite chunks_fuel_cons.
    remember (x :: l') as l eqn:El.
    assert (Hn : (1 <= List.length l)%nat) by (subst; simpl; lia).
    rewrite (chunk_count_step _ Hn).
    rewrite IH by (rewrite length_skipn; lia).
    rewrite length_skipn.
    rewrite <- cons_seq, <- seq_shift, map_cons, map_map.
    rewrite Nat.mul_0_r. f_equal.
    apply map_ext. intros j. rewrite skipn_skipn. f_equal. f_equal. lia.
Qed.

Lemma chunks_are_batches ids :
  chunks batch_size ids =
  map (fun i => firstn batch_size (skipn i ids)) (batch_starts (List.length ids)).
Proof.
  unfold chunks, batch_starts, batch_size.
  rewrite chunks_fuel_starts by lia. rewrite map_map.
  replace (List.length ids + 500 - 1)%nat with (List.length ids + 499)%nat by lia.
  reflexivity.
Qed.

Lemma chunks_fuel_concat fuel k :
  forall l, (List.length l <= fuel)%nat -> (0 < k)%nat ->
            List.concat (chunks_fuel fuel k l) = l.
Proof.
  induction fuel as [|fuel IH]; intros l Hl Hk.
  - destruct l; [reflexivity | simpl in Hl; lia].
  - destruct l as [|x l']; [reflexivity|].
    rewrite chunks_fuel_cons.
    remember (x :: l') as l eqn:El.
    simpl List.concat. rewrite IH.
    + apply firstn_skipn.
    + rewrite length_skipn.
      assert (List.length l = S (List.length l')) by (subst; reflexivity). lia.
    + exact Hk.
Qed.

Lemma chunks_fuel_sizes fuel k :
  forall l, (0 < k)%nat ->
            Forall (fun c => (0 < List.length c <= k)%nat) (chunks_fuel fuel k l).
Proof.
  induction fuel as [|fuel IH]; intros l Hk.
  - constructor.
  - destruct l as [|x l']; [constructor|].
    rewrite chunks_fuel_cons.
    constructor; [|apply IH; exact Hk].
    rewrite length_firstn. simpl List.length. lia.
Qed.

Lemma fetch_batches_chunks net ids starts :
  forall acc w,
    fetch_batches net (JList ids) starts acc w =
    fetch_chunks net (map (fun i => firstn batch_size (skipn i ids)) starts) acc w.
Proof.
  induction starts as [|i starts IH]; intros acc w; [reflexivity|].
  change (fetch_batches net (JList ids) (i :: starts) acc w)
    with (bind (_fetch_structures_batch net (JList (firstn batch_size (skipn i ids))))
               (fun r => fetch_batches net (JList ids) starts (acc ++ r)) w).
  change (fetch_chunks net
            (map (fun i => firstn batch_size (skipn i ids)) (i :: starts)) acc w)
    with (bind (_fetch_structures_batch net (JList (firstn batch_size (skipn i ids))))
               (fun r => fetch_chunks net
                           (map (fun i => firstn batch_size (skipn i ids)) starts)
                           (acc ++ r)) w).
  unfold bind.
  destruct (_fetch_structures_batch net (JList (firstn batch_size (skipn i ids))) w)
    as [[r|e] w1]; [apply IH | reflexivity].
Qed.

Lemma fetch_chunks_returns net cs :
  forall acc w, exists out w', fetch_chunks net cs acc w = (Val out, w').
Proof.
  induction cs as [|c cs IH]; intros acc w; simpl.
  - unfold ret. eauto.
  - unfold bind.
    destruct (fetch_structures_batch_returns net (JList c) w) as (r & w1 & Hr & _).
    rewrite Hr. apply IH.
Qed.

(** Above 500 ids [get_structures_info] is the sequence of batched calls
    on the consecutive chunks. *)
Lemma get_structures_info_chunks net ids w :
  (batch_size < List.length ids)%nat ->
  get_structures_info net (JList ids) w =
  (ok <- test_connection net ;;
   if ok then fetch_chunks net (chunks batch_size ids) [] else ret []) w.
Proof.
  intros Hn. unfold get_structures_info, bind at 1 3.
  destruct (test_connection net w) as [[ok|e] w1]; [|reflexivity].
  destruct ok; cbn [negb]; [|reflexivity].
  unfold try_except, bind, lift. cbn [py_len].
  assert (Hgt : (Z.of_nat (List.length ids) >? Z.of_nat batch_size) = true)
    by (apply Z.gtb_lt; lia).
  rewrite Hgt. rewrite Nat2Z.id.
  rewrite fetch_batches_chunks, <- chunks_are_batches.
  destruct (fetch_chunks_returns net (chunks batch_size ids) [] w1) as (out & w' & Hr).
  rewrite Hr. reflexivity.
Qed.

(** A response that [_request_with_retry] returns is the server's answer
    to a request for the same URL with the same JSON payload. *)
Lemma request_with_retry_provenance net m u h jd ps w r w' :
  _request_with_retry net m u h jd ps w = (Val (Some r), w') ->
  exists tr req,
    net tr req = Val r /\ r_url req = u /\
    r_json req = match m with GET => None | _ => jd end.
Proof.
  unfold _request_with_retry. intros H. inv_m.
  assert (Hsend : forall hh w0 a w1,
            m = GET \/ m = POST ->
            send net m u hh jd ps w0 = (Val a, w1) ->
            exists tr req, net tr req = Val a /\ r_url req = u /\
                           r_json req = match m with GET => None | _ => jd end).
  { intros hh w0 a w1 Hm Hs. rewrite (send_run _ _ _ _ _ _ _ Hm) in Hs.
    injection Hs as Hr _. exists (trace w0), (sent m u hh jd ps w0).
    split; [exact Hr|]. split; [reflexivity|].
    destruct Hm as [-> | ->]; reflexivity. }
  assert (Hcase : m = GET \/ m = POST \/ exists s, m = OtherMethod s)
    by (destruct m; eauto).
  destruct Hcase as [Hm | [Hm | [s Hm]]].
  3:{ subst. inv_m. discriminate. }
  all: assert (Hm' : m = GET \/ m = POST) by auto.
  all: assert (Hb :
    (response <- send net m u (with_token (token w) h) jd ps ;;
     if auth_failed (status_code response) then
       modify clear_token ;;;
       ok <- login net ;;
       if ok then
         t' <- gets token ;;
         response' <- send net m u
             (mkHeaders (Some t') (Dng_Api_Key (with_token (token w) h))) jd ps ;;
         ret (Some response')
       else ret None
     else ret (Some response)) w = (Val (Some r), w'))
    by (subst m; exact H).
  all: clear H; inv_m; break_in Hb.
  all: try (inv_m; match goal with
            | Hx : Some _ = Some _ |- _ => inversion Hx; subst
            end; eapply Hsend; eauto; fail).
  all: unfold modify in *; inv_m.
  all: match goal with
       | Hx : (_, _) = (Val _, _) |- _ => inversion Hx; subst; clear Hx
       end.
  all: inv_m; break_in Hb; inv_m; try discriminate.
  all: match goal with
       | Hx : Some _ = Some _ |- _ => inversion Hx; subst
       end; eapply Hsend; eauto.
Qed.

Lemma unique_structures_incl batch_results :
  forall seen out,
    unique_structures batch_results seen = Val out -> incl out batch_results.
Proof.
  induction batch_results as [|structure rest IH]; intros seen out H; simpl in H.
  - inversion H. apply incl_nil_l.
  - destruct (py_get structure "structure_id" JNull) as [sid|e]; [|discriminate].
    destruct (truthy sid).
    + destruct (set_mem sid seen) as [[|]|e]; [ | |discriminate].
      * apply incl_tl. eapply IH; eauto.
      * destruct (unique_structures rest (sid :: seen)) as [u|e] eqn:Hu; [|discriminate].
        inversion H; subst. apply incl_cons; [left; reflexivity|].
        apply incl_tl. eapply IH; eauto.
    + apply incl_tl. eapply IH; eauto.
Qed.

(** One batch: the records are pairwise different and, on a server that
    answers with requested records only, all among the requested ids. *)
Lemma fetch_structures_batch_result net ids w out w' :
  _fetch_structures_batch net (JList ids) w = (Val out, w') ->
  distinct_ids out = true /\
  (answers_requested_only net -> Forall (fun s => id_among ids s = true) out).
Proof.
  unfold _fetch_structures_batch. intros Hrun.
  assert (Hnil : distinct_ids [] = true /\
                 (answers_requested_only net ->
                  Forall (fun s => id_among ids s = true) [])).
  { split; [reflexivity | constructor]. }
  apply try_except_val_inv in Hrun. destruct Hrun as [Hb | (e & w1 & _ & Hh)].
  2:{ inv_m. exact Hnil. }
  inv_m. break_in Hb; [break_in Hb|]; inv_m; try exact Hnil.
  break_in Hb; inv_m; try exact Hnil.
  match goal with
  | Hu : unique_structures ?items [] = Val out |- _ =>
      destruct (unique_structures_distinct _ _ _ Hu) as [Hd _];
      pose proof (unique_structures_incl _ _ _ Hu) as Hincl;
      pose proof (unique_structures_truthy _ _ _ Hu) as Htr
  end.
  split; [exact Hd|]. intros Hnet.
  match goal with
  | Hr : _request_with_retry _ _ _ _ _ _ _ = (Val (Some ?resp), _) |- _ =>
      destruct (request_with_retry_provenance _ _ _ _ _ _ _ _ _ Hr)
        as (tr & req & Hans & _ & Hjson)
  end.
  rewrite Forall_forall in *. intros s Hs.
  match goal with
  | Hj : match json ?resp with _ => _ end = Val ?data |- _ =>
      destruct (json resp) as [d|] eqn:Hjs; [|discriminate];
      inversion Hj; subst
  end.
  eapply (Hnet tr req); eauto.
Qed.

Lemma filter_length_lt {A} (f : A -> bool) (l : list A) a :
  In a l -> f a = false -> (List.length (filter f l) < List.length l)%nat.
Proof.
  induction l as [|x l IH]; intros Hin Hf; [destruct Hin|].
  simpl. destruct Hin as [-> | Hin].
  - rewrite Hf. pose proof (filter_length_le f l). lia.
  - specialize (IH Hin Hf). destruct (f x); simpl; lia.
Qed.

(** Pairwise different records that all carry one of [ids] are no more
    than [ids]. *)
Lemma distinct_among_length out :
  forall ids,
    distinct_ids out = true ->
    Forall (fun s => id_among ids s = true) out ->
    (List.length out <= List.length ids)%nat.
Proof.
  induction out as [|x out IH]; intros ids Hd Ha; simpl; [lia|].
  simpl in Hd. apply andb_true_iff in Hd. destruct Hd as [Hx Hd].
  apply negb_true_iff in Hx.
  inversion Ha as [|? ? Hxa Ha']; subst.
  unfold id_among in Hxa.
  destruct (structure_id_of x) as [sx|] eqn:Hsx; [|discriminate].
  apply existsb_exists in Hxa. destruct Hxa as (i & Hi & Hxi).
  set (ids' := filter (fun k => negb (key_eqb sx k)) ids).
  assert (Hlt : (List.length ids' < List.length ids)%nat).
  { apply (filter_length_lt _ ids i Hi). rewrite Hxi. reflexivity. }
  assert (Ha'' : Forall (fun s => id_among ids' s = true) out).
  { rewrite Forall_forall in *. intros y Hy. specialize (Ha' y Hy).
    unfold id_among in *.
    destruct (structure_id_of y) as [sy|] eqn:Hsy; [|discriminate].
    apply existsb_exists in Ha'. destruct Ha' as (j & Hj & Hyj).
    apply existsb_exists. exists j. split; [|exact Hyj].
    apply filter_In. split; [exact Hj|].
    destruct (key_eqb sx j) eqn:Hxj; [|reflexivity].
    exfalso.
    assert (Hsame : same_id x y = true).
    { unfold same_id. rewrite Hsx, Hsy.
      eapply key_eqb_trans; [exact Hxj|]. rewrite key_eqb_sym. exact Hyj. }
    assert (existsb (same_id x) out = true)
      by (apply existsb_exists; eauto).
    congruence. }
  specialize (IH ids' Hd Ha''). lia.
Qed.

Lemma fetch_chunks_length net (Hnet : answers_requested_only net) cs :
  forall acc w out w',
    fetch_chunks net cs acc w = (Val out, w') ->
    (List.length out <= List.length acc + List.length (List.concat cs))%nat.
Proof.
  induction cs as [|c cs IH]; intros acc w out w' H; simpl in H.
  - inv_m. simpl. lia.
  - inv_m.
    match goal with
    | Hf : _fetch_structures_batch net (JList c) _ = (Val ?r, _) |- _ =>
        destruct (fetch_structures_batch_result _ _ _ _ _ Hf) as [Hdist Hamong];
        pose proof (distinct_among_length _ _ Hdist (Hamong Hnet)) as Hlen
    end.
    specialize (IH _ _ _ _ H). rewrite length_app in IH.
    simpl. rewrite length_app. lia.
Qed.

Lemma distinct_ids_app l1 :
  forall l2,
    distinct_ids l1 = true -> distinct_ids l2 = true ->
    (forall a b, In a l1 -> In b l2 -> same_id a b = false) ->
    distinct_ids (l1 ++ l2) = true.
Proof.
  induction l1 as [|x l1 IH]; intros l2 H1 H2 Hc; simpl; [exact H2|].
  simpl in H1. apply andb_true_iff in H1. destruct H1 as [Hx H1].
  apply andb_true_iff. split.
  - apply negb_true_iff. rewrite existsb_app. apply orb_false_iff. split.
    + apply negb_true_iff. exact Hx.
    + destruct (existsb (same_id x) l2) eqn:He; [|reflexivity].
      apply existsb_exists in He. destruct He as (b & Hb & Hs).
      rewrite (Hc x b (or_introl eq_refl) Hb) in Hs. discriminate.
  - apply IH; auto. intros a b Ha Hb. apply Hc; [right|]; assumption.
Qed.

Lemma distinct_keys_cross l1 :
  forall l2 p q,
    distinct_keys (l1 ++ l2) = true -> In p l1 -> In q l2 -> key_eqb p q = false.
Proof.
  induction l1 as [|x l1 IH]; intros l2 p q Hd Hp Hq; [destruct Hp|].
  simpl in Hd. apply andb_true_iff in Hd. destruct Hd as [Hx Hd].
  destruct Hp as [-> | Hp].
  - apply negb_true_iff in Hx.
    destruct (key_eqb p q) eqn:Hpq; [|reflexivity].
    assert (existsb (key_eqb p) (l1 ++ l2) = true).
    { apply existsb_exists. exists q. split; [|exact Hpq].
      apply in_or_app. right. exact Hq. }
    congruence.
  - eapply IH; eauto.
Qed.

Lemma id_among_app ids1 ids2 s :
  id_among ids1 s = true \/ id_among ids2 s = true ->
  id_among (ids1 ++ ids2) s = true.
Proof.
  unfold id_among. destruct (structure_id_of s); [|intros [H|H]; discriminate].
  rewrite existsb_app. intros [-> | ->]; auto using orb_true_r.
Qed.

Lemma fetch_chunks_distinct net (Hnet : answers_requested_only net) cs :
  forall done acc w out w',
    distinct_keys (done ++ List.concat cs) = true ->
    distinct_ids acc = true ->
    Forall (fun s => id_among done s = true) acc ->
    fetch_chunks net cs acc w = (Val out, w') ->
    distinct_ids out = true.
Proof.
  induction cs as [|c cs IH]; intros done acc w out w' Hk Hd Ha H; simpl in H.
  - inv_m. exact Hd.
  - inv_m.
    match goal with
    | Hf : _fetch_structures_batch net (JList c) _ = (Val ?r, _) |- _ =>
        destruct (fetch_structures_batch_result _ _ _ _ _ Hf) as [Hdist Hamong];
        specialize (Hamong Hnet)
    end.
    simpl in Hk.
    eapply (IH (done ++ c)); [ | | |exact H].
    + rewrite <- app_assoc. exact Hk.
    + apply distinct_ids_app; [exact Hd | exact Hdist |].
      intros x y Hx Hy. rewrite Forall_forall in Ha, Hamong.
      specialize (Ha x Hx). specialize (Hamong y Hy).
      unfold id_among in Ha, Hamong. unfold same_id.
      destruct (structure_id_of x) as [sx|]; [|reflexivity].
      destruct (structure_id_of y) as [sy|]; [|reflexivity].
      apply existsb_exists in Ha. destruct Ha as (p & Hp & Hxp).
      apply existsb_exists in Hamong. destruct Hamong as (q & Hq & Hyq).
      destruct (key_eqb sx sy) eqn:Hxy; [|reflexivity]. exfalso.
      assert (Hpq : key_eqb p q = true).
      { eapply key_eqb_trans; [rewrite key_eqb_sym; exact Hxp|].
        eapply key_eqb_trans; [exact Hxy | exact Hyq]. }
      rewrite (distinct_keys_cross done (c ++ List.concat cs) p q Hk Hp) in Hpq;
        [discriminate|].
      apply in_or_app. left. exact Hq.
    + apply Forall_app. split.
      * eapply Forall_impl; [|exact Ha]. intros s Hs.
        apply id_among_app. left. exact Hs.
      * eapply Forall_impl; [|exact Hamong]. intros s Hs.
        apply id_among_app. right. exact Hs.
Qed.

(** C2 (as amended).  For more than 500 ids and a client whose connection
    test succeeds, [get_structures_info] makes exactly ceil(n/500) batched
    calls, one per consecutive chunk of at most 500 ids, in order, and
    returns the concatenation of their results; each chunk's result has no
    two records with the same structure_id.  If the server answers a batch
    with records of requested structures only, the result has at most n
    records; if moreover the requested ids are pairwise different, no two
    records of the whole result have the same structure_id. *)
Theorem get_structures_info_batches net ids w w1 :
  (batch_size < List.length ids)%nat ->
  test_connection net w = (Val true, w1) ->
  let n := List.length ids in
  let cs := chunks batch_size ids in
  List.length cs = ((n + 499) / 500)%nat /\
  List.concat cs = ids /\
  Forall (fun c => (0 < List.length c <= 500)%nat) cs /\
  get_structures_info net (JList ids) w = fetch_chunks net cs [] w1 /\
  (forall c w2 out w3,
      _fetch_structures_batch net (JList c) w2 = (Val out, w3) ->
      distinct_ids out = true) /\
  exists out w',
    get_structures_info net (JList ids) w = (Val out, w') /\
    (answers_requested_only net ->
       (List.length out <= n)%nat /\
       (distinct_keys ids = true -> distinct_ids out = true)).
Proof.
  intros Hn Ht n cs.
  assert (Hrun : get_structures_info net (JList ids) w = fetch_chunks net cs [] w1).
  { rewrite get_structures_info_chunks by exact Hn.
    unfold bind. rewrite Ht. reflexivity. }
  assert (Hcat : List.concat cs = ids).
  { unfold cs, chunks. apply chunks_fuel_concat; [lia | unfold batch_size; lia]. }
  split.
  { unfold cs. rewrite chunks_are_batches. unfold batch_starts, batch_size.
    rewrite !length_map, length_seq. f_equal. unfold n. lia. }
  split; [exact Hcat|].
  split.
  { unfold cs, chunks. apply (chunks_fuel_sizes _ 500). lia. }
  split; [exact Hrun|].
  split.
  { intros c w2 out w3 Hf.
    apply (fetch_structures_batch_result _ _ _ _ _ Hf). }
  destruct (fetch_chunks_returns net cs [] w1) as (out & w' & Hout).
  exists out, w'. split; [rewrite Hrun; exact Hout|].
  intros Hnet. split.
  - pose proof (fetch_chunks_length net Hnet cs [] w1 out w' Hout) as Hlen.
    rewrite Hcat in Hlen. simpl in Hlen. exact Hlen.
  - intros Hk.
    apply (fetch_chunks_distinct net Hnet cs [] [] w1 out w'); auto.
    simpl. rewrite Hcat. exact Hk.
Qed.

Lemma net_echo_answers_requested_only : answers_requested_only net_echo.
Proof.
  intros tr req r ids data batch_results items Hans Hreq Hjson Hbatch Hiter s Hs _.
  unfold net_echo in Hans. rewrite Hreq in Hans. cbn in Hans.
  injection Hans as <-. cbn in Hjson. injection Hjson as <-.
  cbn in Hbatch. injection Hbatch as <-. cbn in Hiter. injection Hiter as <-.
  apply in_flat_map in Hs. destruct Hs as (id & Hid & Hs).
  destruct id; try (destruct Hs; fail).
  destruct Hs as [<- | []].
  unfold id_among. cbn. apply existsb_exists.
  exists (JInt n). split; [exact Hid|].
  unfold key_eqb. cbn. apply Qeq_bool_iff. reflexivity.
Qed.

Lemma get_structures_info_batches_witness :
  exists out w',
    get_structures_info net_echo (JList ids_1_to_501) w_ready = (Val out, w') /\
    (List.length out <= 501)%nat /\ distinct_ids out = true.
Proof.
  destruct (get_structures_info_batches net_echo ids_1_to_501 w_ready w_ready)
    as (_ & _ & _ & _ & _ & out & w' & Hrun & Hres).
  - apply Nat.ltb_lt. reflexivity.
  - reflexivity.
  - destruct (Hres net_echo_answers_requested_only) as [Hlen Hd].
    exists out, w'. split; [exact Hrun|]. split; [exact Hlen|].
    apply Hd. vm_compute. reflexivity.
Defined.

(** C2 as stated fails: an id that occurs in two chunks is answered in
    both, and the concatenated result then carries it twice. *)
Lemma get_structures_info_duplicate_across_chunks :
  (batch_size < List.length ids_501)%nat /\
  test_connection net_echo w_ready = (Val true, w_ready) /\
  answers_requested_only net_echo /\
  exists out w',
    get_structures_info net_echo (JList ids_501) w_ready = (Val out, w') /\
    distinct_ids out = false.
Proof.
  split; [apply Nat.ltb_lt; reflexivity|].
  split; [reflexivity|].
  split; [exact net_echo_answers_requested_only|].
  eexists. eexists. split.
  - vm_compute. reflexivity.
  - vm_compute. reflexivity.
Qed.

(** ** Export polling *)

Lemma extend_extend l1 l2 w : extend l2 (extend l1 w) = extend (l1 ++ l2) w.
Proof. unfold extend. simpl. rewrite app_assoc. reflexivity. Qed.

Lemma extend_nil w : extend [] w = w.
Proof. unfold extend. rewrite app_nil_r. destruct w; reflexivity. Qed.

Lemma add_event_extend e w : add_event e w = extend [e] w.
Proof. reflexivity. Qed.

Lemma ok_status_not_auth_failed s : ok_status s = true -> auth_failed s = false.
Proof.
  unfold ok_status, auth_failed. intros H.
  apply orb_true_iff in H. destruct H as [H | H]; apply Z.eqb_eq in H; subst; reflexivity.
Qed.

Lemma poll_export_body_pending {A} net id (payload : Response -> result A) w :
  always_pending net id ->
  poll_export_body net id payload w =
  (Val Continue, extend [EvRequest (poll_request id w); EvSleep 2000] w).
Proof.
  intros Hp.
  destruct (Hp (trace w) (poll_request id w) (base_url w) eq_refl)
    as (r & data & state & Hnet & Hok & Hjson & Hstate & Hs & Hf).
  unfold poll_export_body. unfold bind at 1. unfold gets. unfold bind at 1.
  rewrite (request_with_retry_plain net GET _ _ _ _ w r (or_introl eq_refl) Hnet
             (ok_status_not_auth_failed _ Hok)).
  rewrite Hok. unfold except_json_decode, try_except, response_json, bind, lift.
  rewrite Hjson, Hstate, Hs, Hf. unfold sleep, modify, ret.
  rewrite !add_event_extend, extend_extend. reflexivity.
Qed.

Lemma poll_request_extend id l w : poll_request id (extend l w) = poll_request id w.
Proof. reflexivity. Qed.

(** The loop of [export_structure_pdb] and [download_structures_zip]:
    with every poll pending, [n] remaining attempts are [n] polls, each
    followed by its sleep, and then the timeout. *)
Lemma poll_export_pending {A} net id (payload : Response -> result A) n :
  always_pending net id ->
  forall w,
    poll_export net n id payload w =
    (Val None, extend (polls_then_sleeps (poll_request id w) n) w).
Proof.
  intros Hp. induction n as [|n IH]; intros w.
  - simpl. unfold ret. rewrite extend_nil. reflexivity.
  - simpl poll_export. unfold bind.
    rewrite (poll_export_body_pending net id payload w Hp).
    rewrite IH. rewrite poll_request_extend, extend_extend. reflexivity.
Qed.

Lemma poll_batch_body_pending net py_str swt id w :
  always_pending net id ->
  poll_batch_body net py_str swt id w =
  (Val Continue, extend [EvRequest (poll_request id w)] w).
Proof.
  intros Hp.
  destruct (Hp (trace w) (poll_request id w) (base_url w) eq_refl)
    as (r & data & state & Hnet & Hok & Hjson & Hstate & Hs & Hf).
  unfold poll_batch_body. unfold bind at 1. unfold gets. unfold bind at 1.
  rewrite (request_with_retry_plain net GET _ _ _ _ w r (or_introl eq_refl) Hnet
             (ok_status_not_auth_failed _ Hok)).
  rewrite Hok. unfold try_except, response_json, bind, lift.
  rewrite Hjson, Hstate, Hs, Hf. reflexivity.
Qed.

(** The loop of the single-structure branch of
    [export_structures_with_transforms]: the sleep is skipped after the
    last attempt. *)
Lemma poll_batch_pending net py_str swt id n :
  always_pending net id ->
  forall w,
    poll_batch net py_str n swt id w =
    (Val None, extend (polls_with_sleeps_between (poll_request id w) n) w).
Proof.
  intros Hp. induction n as [|n IH]; intros w.
  - simpl. unfold ret. rewrite extend_nil. reflexivity.
  - simpl poll_batch. unfold bind at 1.
    rewrite (poll_batch_body_pending net py_str swt id w Hp).
    destruct n as [|n'].
    + unfold bind, ret. simpl. reflexivity.
    + unfold bind at 1. unfold sleep, modify. rewrite add_event_extend, extend_extend.
      rewrite IH. rewrite poll_request_extend, extend_extend. reflexivity.
Qed.

Lemma count_cons p e l :
  count p (e :: l) = ((if p e then 1 else 0) + count p l)%nat.
Proof. unfold count. simpl. destruct (p e); reflexivity. Qed.

Lemma poll_not_download id req :
  is_poll_event id (EvRequest req) = true ->
  is_download_event (EvRequest req) = false.
Proof.
  unfold is_poll_event, is_download_event.
  destruct (r_url req) as [b p|]; [destruct p|]; try discriminate; reflexivity.
Qed.

Lemma polls_then_sleeps_counts id req n :
  is_poll_event id (EvRequest req) = true ->
  count (is_poll_event id) (polls_then_sleeps req n) = n /\
  count is_sleep_event (polls_then_sleeps req n) = n /\
  count is_download_event (polls_then_sleeps req n) = 0%nat.
Proof.
  intros Hq. pose proof (poll_not_download _ _ Hq) as Hd.
  induction n as [|n (IH1 & IH2 & IH3)]; [repeat split|].
  change (polls_then_sleeps req (S n))
    with (EvRequest req :: EvSleep 2000 :: polls_then_sleeps req n).
  rewrite !count_cons, Hq, Hd, IH1, IH2, IH3.
  change (is_poll_event id (EvSleep 2000)) with false.
  change (is_sleep_event (EvRequest req)) with false.
  change (is_sleep_event (EvSleep 2000)) with true.
  change (is_download_event (EvSleep 2000)) with false.
  repeat split; lia.
Qed.

Lemma polls_with_sleeps_between_counts id req n :
  is_poll_event id (EvRequest req) = true ->
  count (is_poll_event id) (polls_with_sleeps_between req n) = n /\
  count is_sleep_event (polls_with_sleeps_between req n) = (n - 1)%nat /\
  count is_download_event (polls_with_sleeps_between req n) = 0%nat.
Proof.
  intros Hq. pose proof (poll_not_download _ _ Hq) as Hd.
  induction n as [|n (IH1 & IH2 & IH3)]; [repeat split|].
  destruct n as [|n'].
  - change (polls_with_sleeps_between req 1) with [EvRequest req].
    rewrite !count_cons, Hq, Hd. repeat split.
  - change (polls_with_sleeps_between req (S (S n')))
      with (EvRequest req :: EvSleep 2000 :: polls_with_sleeps_between req (S n')).
    rewrite !count_cons, Hq, Hd, IH1, IH2, IH3.
    change (is_poll_event id (EvSleep 2000)) with false.
    change (is_sleep_event (EvRequest req)) with false.
    change (is_sleep_event (EvSleep 2000)) with true.
    change (is_download_event (EvSleep 2000)) with false.
    repeat split; lia.
Qed.

Ltac step_m := cbv beta iota; cbn [negb]; cbv beta iota.

Lemma test_connection_stable net w w1 :
  test_connection net w = (Val true, w1) ->
  is_configured w1 = true /\
  test_connection net w1 = (Val true, w1) /\
  is_authenticated net w1 = (Val true, w1).
Proof.
  intros Ht.
  assert (H : is_configured w1 = true /\ truthy (token w1) = true /\
              exists t, Authorization (session_headers w1) = Some t).
  { unfold test_connection, bind, gets, ret in Ht.
    destruct (is_configured w) eqn:Hc; simpl in Ht; [|discriminate].
    destruct (truthy (token w)) eqn:Htok; simpl in Ht.
    - destruct (Authorization (session_headers w)) as [t|] eqn:Ha.
      + inversion Ht; subst. eauto.
      + destruct (login_cases net w) as (ok & w' & Hl & Hb & Hk & _ & Hok).
        rewrite Hl in Ht. inversion Ht; subst.
        destruct (Hok eq_refl) as (_ & H1 & H2 & _).
        split; [|eauto]. unfold is_configured in *. rewrite Hb, Hk. exact Hc.
    - destruct (login_cases net w) as (ok & w' & Hl & Hb & Hk & _ & Hok).
      rewrite Hl in Ht. inversion Ht; subst.
      destruct (Hok eq_refl) as (_ & H1 & H2 & _).
      split; [|eauto]. unfold is_configured in *. rewrite Hb, Hk. exact Hc. }
  destruct H as (Hc & Htok & t & Ha).
  assert (Htc : test_connection net w1 = (Val true, w1)).
  { unfold test_connection, bind, gets, ret. rewrite Hc, Htok, Ha. reflexivity. }
  split; [exact Hc|]. split; [exact Htc|].
  unfold is_authenticated, bind, gets. rewrite Hc. exact Htc.
Qed.

Lemma await_export_pending {A} net id (payload : Response -> result A) r w :
  accepted r id -> always_pending net id ->
  await_export net r payload w =
  (Val None, extend (polls_then_sleeps (poll_request id w) 30) w).
Proof.
  intros (Hok & Hid & Hne) Hp. unfold await_export. rewrite Hok, Hid.
  apply String.eqb_neq in Hne. rewrite Hne. simpl negb. cbv iota.
  apply poll_export_pending. exact Hp.
Qed.

Lemma export_structure_pdb_timeout net sid n id w w1 r w2 :
  test_connection net w = (Val true, w1) ->
  py_int sid = Val n ->
  submit_pdb net n w1 = (Val (Some r), w2) ->
  accepted r id -> always_pending net id ->
  export_structure_pdb net sid w =
  (Val None, extend (polls_then_sleeps (poll_request id w2) 30) w2).
Proof.
  intros Ht Hn Hs Ha Hp. unfold export_structure_pdb. unfold bind at 1.
  rewrite Ht. step_m.
  unfold try_except, bind, gets, lift. rewrite Hn. cbv beta iota.
  unfold submit_pdb in Hs. rewrite Hs.
  rewrite (await_export_pending net id _ r w2 Ha Hp). reflexivity.
Qed.

Lemma download_structures_zip_timeout net ids matrices id w w1 r w2 :
  is_authenticated net w = (Val true, w1) ->
  submit_zip net ids matrices w1 = (Val (Some r), w2) ->
  accepted r id -> always_pending net id ->
  download_structures_zip net ids matrices w =
  (Val None, extend (polls_then_sleeps (poll_request id w2) 30) w2).
Proof.
  intros Ht Hs Ha Hp. unfold download_structures_zip. unfold bind at 1.
  rewrite Ht. step_m.
  unfold try_except, bind, gets. cbv beta iota. unfold submit_zip in Hs. rewrite Hs.
  rewrite (await_export_pending net id _ r w2 Ha Hp). reflexivity.
Qed.

Lemma export_single_transformed_timeout net py_str swt codes matrix id w w1 r w2 :
  (List.length swt <= 1)%nat ->
  test_connection net w = (Val true, w1) ->
  comprehension (fun item => py_getitem item "external_code") swt = Val codes ->
  comprehension matrix_entry swt = Val matrix ->
  submit_transformed net codes matrix w1 = (Val (Some r), w2) ->
  accepted r id -> always_pending net id ->
  export_structures_with_transforms net py_str swt w =
  (Val None, extend (polls_with_sleeps_between (poll_request id w2) 30) w2).
Proof.
  intros Hlen Ht Hc Hm Hs (Hok & Hid & Hne) Hp.
  unfold export_structures_with_transforms. unfold bind at 1.
  rewrite Ht. step_m.
  assert (Hl : (1 <? List.length swt)%nat = false) by (apply Nat.ltb_ge; exact Hlen).
  rewrite Hl.
  unfold try_except, bind, gets, lift. rewrite Hc, Hm. cbv beta iota.
  unfold submit_transformed in Hs. rewrite Hs. rewrite Hok, Hid.
  apply String.eqb_neq in Hne. rewrite Hne. step_m.
  rewrite (poll_batch_pending net py_str swt id max_attempts Hp w2). reflexivity.
Qed.

Lemma export_many_transformed_timeout net py_str swt ids matrix id w w1 r w2 :
  (1 < List.length swt)%nat ->
  test_connection net w = (Val true, w1) ->
  comprehension matrix_entry swt = Val matrix ->
  comprehension (fun item => py_getitem item "structure_id") swt = Val ids ->
  submit_zip net ids (Some matrix) w1 = (Val (Some r), w2) ->
  accepted r id -> always_pending net id ->
  export_structures_with_transforms net py_str swt w =
  (Val None, extend (polls_then_sleeps (poll_request id w2) 30) w2).
Proof.
  intros Hlen Ht Hm Hi Hs Ha Hp.
  destruct (test_connection_stable net w w1 Ht) as (_ & _ & Hauth).
  unfold export_structures_with_transforms. unfold bind at 1.
  rewrite Ht. step_m.
  assert (Hl : (1 <? List.length swt)%nat = true) by (apply Nat.ltb_lt; exact Hlen).
  rewrite Hl.
  unfold try_except, bind, lift. rewrite Hm, Hi. cbv beta iota.
  rewrite (download_structures_zip_timeout net ids (Some matrix) id w1 w1 r w2 Hauth Hs Ha Hp).
  reflexivity.
Qed.

(** C4.  When every poll of the domain event answers a state that is
    neither success nor failed, each export flow ([export_structure_pdb],
    [download_structures_zip], and both branches of
    [export_structures_with_transforms]) returns [None] after exactly 30
    polls: what the flow adds to the trace after the accepted export
    request is 30 poll requests with a 2-second sleep after each (29
    sleeps, between the polls, in the single-structure branch of
    [export_structures_with_transforms]) and nothing else, so there is no
    31st poll and no download. *)
Theorem export_polling_times_out net id :
  always_pending net id ->
  (forall sid n w w1 r w2,
      test_connection net w = (Val true, w1) ->
      py_int sid = Val n ->
      submit_pdb net n w1 = (Val (Some r), w2) ->
      accepted r id ->
      export_structure_pdb net sid w =
      (Val None, extend (polls_then_sleeps (poll_request id w2) 30) w2)) /\
  (forall ids matrices w w1 r w2,
      is_authenticated net w = (Val true, w1) ->
      submit_zip net ids matrices w1 = (Val (Some r), w2) ->
      accepted r id ->
      download_structures_zip net ids matrices w =
      (Val None, extend (polls_then_sleeps (poll_request id w2) 30) w2)) /\
  (forall py_str swt codes matrix w w1 r w2,
      (List.length swt <= 1)%nat ->
      test_connection net w = (Val true, w1) ->
      comprehension (fun item => py_getitem item "external_code") swt = Val codes ->
      comprehension matrix_entry swt = Val matrix ->
      submit_transformed net codes matrix w1 = (Val (Some r), w2) ->
      accepted r id ->
      export_structures_with_transforms net py_str swt w =
      (Val None, extend (polls_with_sleeps_between (poll_request id w2) 30) w2)) /\
  (forall py_str swt ids matrix w w1 r w2,
      (1 < List.length swt)%nat ->
      test_connection net w = (Val true, w1) ->
      comprehension matrix_entry swt = Val matrix ->
      comprehension (fun item => py_getitem item "structure_id") swt = Val ids ->
      submit_zip net ids (Some matrix) w1 = (Val (Some r), w2) ->
      accepted r id ->
      export_structures_with_transforms net py_str swt w =
      (Val None, extend (polls_then_sleeps (poll_request id w2) 30) w2)) /\
  (forall w,
      let each := polls_then_sleeps (poll_request id w) 30 in
      let between := polls_with_sleeps_between (poll_request id w) 30 in
      count (is_poll_event id) each = 30%nat /\
      count is_sleep_event each = 30%nat /\
      count is_download_event each = 0%nat /\
      count (is_poll_event id) between = 30%nat /\
      count is_sleep_event between = 29%nat /\
      count is_download_event between = 0%nat).
Proof.
  intros Hp.
  split; [intros; eapply export_structure_pdb_timeout; eauto|].
  split; [intros; eapply download_structures_zip_timeout; eauto|].
  split; [intros; eapply export_single_transformed_timeout; eauto|].
  split; [intros; eapply export_many_transformed_timeout; eauto|].
  intros w each between.
  assert (Hq : is_poll_event id (EvRequest (poll_request id w)) = true).
  { unfold is_poll_event, poll_request, sent. simpl. apply String.eqb_refl. }
  destruct (polls_then_sleeps_counts id _ 30 Hq) as (H1 & H2 & H3).
  destruct (polls_with_sleeps_between_counts id _ 30 Hq) as (H4 & H5 & H6).
  unfold each, between. rewrite H1, H2, H3, H4, H5, H6. repeat split.
Qed.

Lemma net_pending_always_pending : always_pending net_pending "ev1".
Proof.
  intros tr req b Hu. unfold net_pending. rewrite Hu.
  exists (json_response 200 (JDict [("state", JStr "pending")])),
         (JDict [("state", JStr "pending")]), (JStr "pending").
  repeat split.
Qed.

Lemma export_polling_times_out_witness :
  fst (export_structure_pdb net_pending (JInt 101) w_ready) = Val None /\
  count (is_poll_event "ev1")
        (trace (snd (export_structure_pdb net_pending (JInt 101) w_ready))) = 30%nat.
Proof.
  destruct (export_polling_times_out net_pending "ev1" net_pending_always_pending)
    as (Hpdb & _).
  rewrite (Hpdb (JInt 101) 101 w_ready w_ready (text_response 200 "ev1")
             (add_event (EvRequest (sent POST (Url (Some "http://host") exports_structure)
                                         (mkHeaders (Some (JStr "tok")) None)
                                         (Some (JDict [("structures_id", JList [JInt 101])]))
                                         [("output_format", JStr "structures-pdb-txt")]
                                         w_ready)) w_ready)).
  - split; [reflexivity | vm_compute; reflexivity].
  - reflexivity.
  - reflexivity.
  - reflexivity.
  - repeat split. discriminate.
Defined.

(** ** Partial export failure *)

Lemma poll_export_body_partial {A} net id (payload : Response -> result A) w r data :
  net (trace w) (poll_request id w) = Val r ->
  ok_status (status_code r) = true ->
  json r = Some data ->
  reports_not_exported data ->
  exists res,
    poll_export_body net id payload w =
    (res, extend [EvRequest (poll_request id w)] w) /\
    (res = Val (Return None) \/ exists e, res = Exc e).
Proof.
  intros Hnet Hok Hjson (state & ne & Hstate & Hs & Hne & Htr).
  unfold poll_export_body. unfold bind at 1. unfold gets. unfold bind at 1.
  rewrite (request_with_retry_plain net GET _ _ _ _ w r (or_introl eq_refl) Hnet
             (ok_status_not_auth_failed _ Hok)).
  rewrite Hok. unfold except_json_decode, try_except, response_json, bind, lift.
  rewrite Hjson, Hstate, Hs. unfold not_exported_of, rbind in Hne.
  destruct (py_get data "content" (JDict [])) as [c|]; [|discriminate].
  destruct (py_get c "errors" (JDict [])) as [er|]; [|discriminate].
  rewrite Hne, Htr. rewrite add_event_extend.
  destruct (py_first ne) as [f|e].
  - destruct (py_get f "error_message" (JStr "Unknown export error")) as [m|e].
    + eexists. split; [reflexivity|]. left. reflexivity.
    + destruct e; eexists; (split; [reflexivity|]); eauto.
  - destruct e; eexists; (split; [reflexivity|]); eauto.
Qed.

Lemma poll_batch_body_partial net py_str swt id w r data :
  net (trace w) (poll_request id w) = Val r ->
  ok_status (status_code r) = true ->
  json r = Some data ->
  reports_not_exported data ->
  poll_batch_body net py_str swt id w =
  (Val (Return None), extend [EvRequest (poll_request id w)] w).
Proof.
  intros Hnet Hok Hjson (state & ne & Hstate & Hs & Hne & Htr).
  unfold poll_batch_body. unfold bind at 1. unfold gets. unfold bind at 1.
  rewrite (request_with_retry_plain net GET _ _ _ _ w r (or_introl eq_refl) Hnet
             (ok_status_not_auth_failed _ Hok)).
  rewrite Hok. unfold try_except, response_json, bind, lift.
  rewrite Hjson, Hstate, Hs. unfold not_exported_of, rbind in Hne.
  destruct (py_get data "content" (JDict [])) as [c|]; [|discriminate].
  destruct (py_get c "errors" (JDict [])) as [er|]; [|discriminate].
  rewrite Hne, Htr. reflexivity.
Qed.

Lemma poll_export_body_pending_here {A} net id (payload : Response -> result A) w r data :
  net (trace w) (poll_request id w) = Val r ->
  ok_status (status_code r) = true ->
  json r = Some data ->
  reports_pending data ->
  poll_export_body net id payload w =
  (Val Continue, extend [EvRequest (poll_request id w); EvSleep 2000] w).
Proof.
  intros Hnet Hok Hjson (state & Hstate & Hs & Hf).
  unfold poll_export_body. unfold bind at 1. unfold gets. unfold bind at 1.
  rewrite (request_with_retry_plain net GET _ _ _ _ w r (or_introl eq_refl) Hnet
             (ok_status_not_auth_failed _ Hok)).
  rewrite Hok. unfold except_json_decode, try_except, response_json, bind, lift.
  rewrite Hjson, Hstate, Hs, Hf. unfold sleep, modify, ret.
  rewrite !add_event_extend, extend_extend. reflexivity.
Qed.

Lemma poll_batch_body_pending_here net py_str swt id w r data :
  net (trace w) (poll_request id w) = Val r ->
  ok_status (status_code r) = true ->
  json r = Some data ->
  reports_pending data ->
  poll_batch_body net py_str swt id w =
  (Val Continue, extend [EvRequest (poll_request id w)] w).
Proof.
  intros Hnet Hok Hjson (state & Hstate & Hs & Hf).
  unfold poll_batch_body. unfold bind at 1. unfold gets. unfold bind at 1.
  rewrite (request_with_retry_plain net GET _ _ _ _ w r (or_introl eq_refl) Hnet
             (ok_status_not_auth_failed _ Hok)).
  rewrite Hok. unfold try_except, response_json, bind, lift.
  rewrite Hjson, Hstate, Hs, Hf. reflexivity.
Qed.

Lemma poll_export_reaches {A} net id (payload : Response -> result A) k :
  forall n w,
    (k < n)%nat ->
    reaches_not_exported net id k w ->
    exists res l,
      poll_export net n id payload w = (res, extend l w) /\
      fails res /\
      count is_download_event l = 0%nat /\
      count (is_poll_event id) l = S k.
Proof.
  induction k as [|k IH]; intros n w Hk Hreach;
    (destruct n as [|n]; [lia|]);
    destruct Hreach as (r & data & Hnet & Hok & Hjson & Hrest).
  - destruct (poll_export_body_partial net id payload w r data Hnet Hok Hjson Hrest)
      as (res & Hbody & Hres).
    simpl poll_export. unfold bind. rewrite Hbody.
    assert (Hcount : count is_download_event [EvRequest (poll_request id w)] = 0%nat /\
                     count (is_poll_event id) [EvRequest (poll_request id w)] = 1%nat).
    { unfold count, is_poll_event, poll_request, sent. simpl.
      rewrite String.eqb_refl. split; reflexivity. }
    destruct Hres as [-> | [e ->]].
    + exists (Val None), [EvRequest (poll_request id w)].
      split; [reflexivity|]. split; [left; reflexivity | exact Hcount].
    + exists (Exc e), [EvRequest (poll_request id w)].
      split; [reflexivity|]. split; [right; eauto | exact Hcount].
  - destruct Hrest as [Hpend Hnext].
    simpl poll_export. unfold bind.
    rewrite (poll_export_body_pending_here net id payload w r data Hnet Hok Hjson Hpend).
    destruct (IH n _ (proj2 (Nat.succ_lt_mono k n) Hk) Hnext) as (res & l & Hrun & Hf & Hd & Hp).
    rewrite Hrun, extend_extend.
    exists res, ([EvRequest (poll_request id w); EvSleep 2000] ++ l).
    split; [reflexivity|]. split; [exact Hf|].
    rewrite !count_app, Hd, Hp.
    unfold count, is_poll_event, poll_request, sent. simpl.
    rewrite String.eqb_refl. split; reflexivity.
Qed.

Lemma poll_batch_reaches net py_str swt id k :
  forall n w,
    (k < n)%nat ->
    reaches_not_exported net id k w ->
    exists l,
      poll_batch net py_str n swt id w = (Val None, extend l w) /\
      count is_download_event l = 0%nat /\
      count (is_poll_event id) l = S k.
Proof.
  induction k as [|k IH]; intros n w Hk Hreach;
    (destruct n as [|n]; [lia|]);
    destruct Hreach as (r & data & Hnet & Hok & Hjson & Hrest).
  - simpl poll_batch. unfold bind at 1.
    rewrite (poll_batch_body_partial net py_str swt id w r data Hnet Hok Hjson Hrest).
    exists [EvRequest (poll_request id w)]. split; [reflexivity|].
    unfold count, is_poll_event, poll_request, sent. simpl.
    rewrite String.eqb_refl. split; reflexivity.
  - destruct Hrest as [Hpend Hnext].
    simpl poll_batch. unfold bind at 1.
    rewrite (poll_batch_body_pending_here net py_str swt id w r data Hnet Hok Hjson Hpend).
    destruct n as [|n']; [lia|].
    unfold bind at 1. unfold sleep, modify.
    rewrite add_event_extend, extend_extend.
    change ([EvRequest (poll_request id w)] ++ [EvSleep (1000 * 2)])
      with [EvRequest (poll_request id w); EvSleep 2000].
    destruct (IH (S n') _ (proj2 (Nat.succ_lt_mono k (S n')) Hk) Hnext)
      as (l & Hrun & Hd & Hp).
    rewrite Hrun, extend_extend.
    exists ([EvRequest (poll_request id w); EvSleep 2000] ++ l).
    split; [reflexivity|].
    rewrite !count_app, Hd, Hp.
    unfold count, is_poll_event, poll_request, sent. simpl.
    rewrite String.eqb_refl. split; reflexivity.
Qed.

Lemma await_export_partial {A} net id (payload : Response -> result A) k r w :
  accepted r id -> (k < 30)%nat -> reaches_not_exported net id k w ->
  exists res l,
    await_export net r payload w = (res, extend l w) /\
    fails res /\ count is_download_event l = 0%nat.
Proof.
  intros (Hok & Hid & Hne) Hk Hreach. unfold await_export. rewrite Hok, Hid.
  apply String.eqb_neq in Hne. rewrite Hne. step_m.
  destruct (poll_export_reaches net id payload k max_attempts w Hk Hreach)
    as (res & l & Hrun & Hf & Hd & _).
  exists res, l. auto.
Qed.

Lemma export_structure_pdb_partial net sid n id k w w1 r w2 :
  test_connection net w = (Val true, w1) ->
  py_int sid = Val n ->
  submit_pdb net n w1 = (Val (Some r), w2) ->
  accepted r id -> (k < 30)%nat -> reaches_not_exported net id k w2 ->
  exists l,
    export_structure_pdb net sid w = (Val None, extend l w2) /\
    count is_download_event l = 0%nat.
Proof.
  intros Ht Hn Hs Ha Hk Hreach. unfold export_structure_pdb. unfold bind at 1.
  rewrite Ht. step_m.
  unfold try_except, bind, gets, lift. rewrite Hn. cbv beta iota.
  unfold submit_pdb in Hs. rewrite Hs.
  destruct (await_export_partial net id (fun r => Val (text r)) k r w2 Ha Hk Hreach)
    as (res & l & Hrun & Hf & Hc).
  rewrite Hrun. exists l. split; [|exact Hc].
  destruct Hf as [-> | [e ->]]; reflexivity.
Qed.

Lemma download_structures_zip_partial net ids matrices id k w w1 r w2 :
  is_authenticated net w = (Val true, w1) ->
  submit_zip net ids matrices w1 = (Val (Some r), w2) ->
  accepted r id -> (k < 30)%nat -> reaches_not_exported net id k w2 ->
  exists l,
    download_structures_zip net ids matrices w = (Val None, extend l w2) /\
    count is_download_event l = 0%nat.
Proof.
  intros Ht Hs Ha Hk Hreach. unfold download_structures_zip. unfold bind at 1.
  rewrite Ht. step_m.
  unfold try_except, bind, gets. cbv beta iota. unfold submit_zip in Hs. rewrite Hs.
  destruct (await_export_partial net id (fun r => Val (content r)) k r w2 Ha Hk Hreach)
    as (res & l & Hrun & Hf & Hc).
  rewrite Hrun. exists l. split; [|exact Hc].
  destruct Hf as [-> | [e ->]]; reflexivity.
Qed.

Lemma export_single_transformed_partial net py_str swt codes matrix id k w w1 r w2 :
  (List.length swt <= 1)%nat ->
  test_connection net w = (Val true, w1) ->
  comprehension (fun item => py_getitem item "external_code") swt = Val codes ->
  comprehension matrix_entry swt = Val matrix ->
  submit_transformed net codes matrix w1 = (Val (Some r), w2) ->
  accepted r id -> (k < 30)%nat -> reaches_not_exported net id k w2 ->
  exists l,
    export_structures_with_transforms net py_str swt w = (Val None, extend l w2) /\
    count is_download_event l = 0%nat.
Proof.
  intros Hlen Ht Hc Hm Hs (Hok & Hid & Hne) Hk Hreach.
  unfold export_structures_with_transforms. unfold bind at 1.
  rewrite Ht. step_m.
  assert (Hl : (1 <? List.length swt)%nat = false) by (apply Nat.ltb_ge; exact Hlen).
  rewrite Hl.
  unfold try_except, bind, gets, lift. rewrite Hc, Hm. cbv beta iota.
  unfold submit_transformed in Hs. rewrite Hs. rewrite Hok, Hid.
  apply String.eqb_neq in Hne. rewrite Hne. step_m.
  destruct (poll_batch_reaches net py_str swt id k max_attempts w2 Hk Hreach)
    as (l & Hrun & Hcnt & _).
  rewrite Hrun. exists l. split; [reflexivity | exact Hcnt].
Qed.

Lemma export_many_transformed_partial net py_str swt ids matrix id k w w1 r w2 :
  (1 < List.length swt)%nat ->
  test_connection net w = (Val true, w1) ->
  comprehension matrix_entry swt = Val matrix ->
  comprehension (fun item => py_getitem item "structure_id") swt = Val ids ->
  submit_zip net ids (Some matrix) w1 = (Val (Some r), w2) ->
  accepted r id -> (k < 30)%nat -> reaches_not_exported net id k w2 ->
  exists l,
    export_structures_with_transforms net py_str swt w = (Val None, extend l w2) /\
    count is_download_event l = 0%nat.
Proof.
  intros Hlen Ht Hm Hi Hs Ha Hk Hreach.
  destruct (test_connection_stable net w w1 Ht) as (_ & _ & Hauth).
  unfold export_structures_with_transforms. unfold bind at 1.
  rewrite Ht. step_m.
  assert (Hl : (1 <? List.length swt)%nat = true) by (apply Nat.ltb_lt; exact Hlen).
  rewrite Hl.
  unfold try_except, bind, lift. rewrite Hm, Hi. cbv beta iota.
  destruct (download_structures_zip_partial net ids (Some matrix) id k w1 w1 r w2
              Hauth Hs Ha Hk Hreach) as (l & Hrun & Hc).
  rewrite Hrun. exists l. split; [reflexivity | exact Hc].
Qed.

Lemma poll_export_partial {A} net id (payload : Response -> result A) n w r data :
  net (trace w) (poll_request id w) = Val r ->
  ok_status (status_code r) = true ->
  json r = Some data ->
  reports_not_exported data ->
  exists res,
    poll_export net (S n) id payload w =
    (res, extend [EvRequest (poll_request id w)] w) /\ fails res.
Proof.
  intros Hnet Hok Hjson Hpart.
  destruct (poll_export_body_partial net id payload w r data Hnet Hok Hjson Hpart)
    as (res & Hbody & Hres).
  simpl poll_export. unfold bind. rewrite Hbody.
  destruct Hres as [-> | [e ->]].
  - exists (Val None). split; [reflexivity | left; reflexivity].
  - exists (Exc e). split; [reflexivity | right; eauto].
Qed.

Lemma poll_batch_partial net py_str swt id n w r data :
  net (trace w) (poll_request id w) = Val r ->
  ok_status (status_code r) = true ->
  json r = Some data ->
  reports_not_exported data ->
  poll_batch net py_str (S n) swt id w =
  (Val None, extend [EvRequest (poll_request id w)] w).
Proof.
  intros Hnet Hok Hjson Hpart. simpl poll_batch. unfold bind at 1.
  rewrite (poll_batch_body_partial net py_str swt id w r data Hnet Hok Hjson Hpart).
  reflexivity.
Qed.

(** C5.  A poll that reports success with a non-empty
    [content.errors.not_exported] ends either polling loop at once, with a
    failure and with that poll as the only request.  So an export whose
    domain event, after any number of pending polls within the 30
    attempts, reaches such a success returns [None] in each export flow,
    and the flow sends no download request, whatever else the export
    contains. *)
Theorem partial_export_is_failure net id :
  (forall A (payload : Response -> result A) n w r data,
      net (trace w) (poll_request id w) = Val r ->
      ok_status (status_code r) = true ->
      json r = Some data ->
      reports_not_exported data ->
      exists res,
        poll_export net (S n) id payload w =
        (res, extend [EvRequest (poll_request id w)] w) /\ fails res) /\
  (forall py_str swt n w r data,
      net (trace w) (poll_request id w) = Val r ->
      ok_status (status_code r) = true ->
      json r = Some data ->
      reports_not_exported data ->
      poll_batch net py_str (S n) swt id w =
      (Val None, extend [EvRequest (poll_request id w)] w)) /\
  (forall k w2,
      (k < 30)%nat ->
      reaches_not_exported net id k w2 ->
      (forall sid n w w1 r,
          test_connection net w = (Val true, w1) ->
          py_int sid = Val n ->
          submit_pdb net n w1 = (Val (Some r), w2) ->
          accepted r id ->
          exists l,
            export_structure_pdb net sid w = (Val None, extend l w2) /\
            count is_download_event l = 0%nat) /\
      (forall ids matrices w w1 r,
          is_authenticated net w = (Val true, w1) ->
          submit_zip net ids matrices w1 = (Val (Some r), w2) ->
          accepted r id ->
          exists l,
            download_structures_zip net ids matrices w = (Val None, extend l w2) /\
            count is_download_event l = 0%nat) /\
      (forall py_str swt codes matrix w w1 r,
          (List.length swt <= 1)%nat ->
          test_connection net w = (Val true, w1) ->
          comprehension (fun item => py_getitem item "external_code") swt = Val codes ->
          comprehension matrix_entry swt = Val matrix ->
          submit_transformed net codes matrix w1 = (Val (Some r), w2) ->
          accepted r id ->
          exists l,
            export_structures_with_transforms net py_str swt w = (Val None, extend l w2) /\
            count is_download_event l = 0%nat) /\
      (forall py_str swt ids matrix w w1 r,
          (1 < List.length swt)%nat ->
          test_connection net w = (Val true, w1) ->
          comprehension matrix_entry swt = Val matrix ->
          comprehension (fun item => py_getitem item "structure_id") swt = Val ids ->
          submit_zip net ids (Some matrix) w1 = (Val (Some r), w2) ->
          accepted r id ->
          exists l,
            export_structures_with_transforms net py_str swt w = (Val None, extend l w2) /\
            count is_download_event l = 0%nat)).
Proof.
  split; [intros; eapply poll_export_partial; eauto|].
  split; [intros; eapply poll_batch_partial; eauto|].
  intros k w2 Hk Hreach.
  split; [intros; eapply export_structure_pdb_partial; eauto|].
  split; [intros; eapply download_structures_zip_partial; eauto|].
  split; [intros; eapply export_single_transformed_partial; eauto|].
  intros; eapply export_many_transformed_partial; eauto.
Qed.

Lemma partial_export_is_failure_witness :
  exists l w2,
    export_structures_with_transforms net_partial str_of_string two_structures w_ready =
      (Val None, extend l w2) /\
    count is_download_event l = 0%nat.
Proof.
  destruct (partial_export_is_failure net_partial "ev1") as (_ & _ & Hops).
  pose (w2 := snd (submit_zip net_partial
                     [JInt 1; JInt 2]
                     (Some [JDict [("external_code", JStr "1abc"); ("structure_id", JInt 1);
                                   ("transform", JList identity_matrix)];
                            JDict [("external_code", JStr "2xyz"); ("structure_id", JInt 2);
                                   ("transform", JList identity_matrix)]])
                     w_ready)).
  assert (Hreach : reaches_not_exported net_partial "ev1" 1 w2).
  { eexists. eexists. split; [reflexivity|]. split; [reflexivity|].
    split; [reflexivity|]. split.
    - exists (JStr "pending"). repeat split.
    - eexists. eexists. split; [reflexivity|]. split; [reflexivity|].
      split; [reflexivity|].
      exists (JStr "success"). eexists. repeat split. }
  destruct (Hops 1%nat w2 (proj1 (Nat.ltb_lt 1 30) eq_refl) Hreach) as (_ & _ & _ & Hmany).
  pose proof (fun ids matrix => Hmany str_of_string two_structures ids matrix w_ready)
    as Hhere.
  edestruct Hhere as (l & Hrun & Hc).
  - apply Nat.ltb_lt. reflexivity.
  - reflexivity.
  - reflexivity.
  - reflexivity.
  - lazy. reflexivity.
  - repeat split. discriminate.
  - exists l, w2. split; [exact Hrun | exact Hc].
Defined.

(** ** Unpacking the ZIP export *)













(** ** Failures: [None], an empty list, or an exception *)













































Lemma test_connection_unconfigured net w :
  is_configured w = false -> test_connection net w = (Val false, w).
Proof. intros H. unfold test_connection, bind, gets, ret. rewrite H. reflexivity. Qed.













(** ** Transforms *)

(** C8.  For a flat transform [t] of 16 values, the matrix that
    [load_project_structures_in_tab] stores for a project structure
    carrying [t] is the four rows [t[0:4]], [t[4:8]], [t[8:12]],
    [t[12:16]], and the transform that [LoadStructureThread.run] sends for
    that matrix is [t] again. *)
Theorem transform_reshape_flatten_roundtrip (t : list value) :
  List.length t = 16%nat ->
  (forall s, carries_transform s t -> TRANSFORM_MATRIX s = Val (JList (rows_of t))) /\
  transform_of_matrix (JList (rows_of t)) = t /\
  flat_matrix (rows_of t) [] = Some t.
Proof.
  intros Hlen.
  do 17 (destruct t as [|? t]; try discriminate).
  split; [|split; reflexivity].
  intros s (ref & Hs & Ht). unfold TRANSFORM_MATRIX, rbind. rewrite Hs.
  destruct ref as [|kv ref]; [discriminate|].
  cbn [truthy is_dict andb py_get]. rewrite Ht. reflexivity.
Qed.

Lemma transform_reshape_flatten_roundtrip_witness :
  transform_of_matrix (JList (rows_of identity_matrix)) = identity_matrix.
Proof.
  apply (transform_reshape_flatten_roundtrip identity_matrix). reflexivity.
Defined.

(** ** Project list *)

Lemma filtered_projects_filter projects_ :
  Forall labelled projects_ ->
  filtered_projects projects_ = Val (filter (fun p => negb (is_3decision p)) projects_).
Proof.
  induction projects_ as [|project rest IH]; intros Hl; [reflexivity|].
  inversion Hl as [|? ? [[l Hlab] [n Hname]] Hrest]; subst.
  simpl. unfold is_3decision. rewrite Hlab, Hname.
  unfold lowered, rbind in Hlab, Hname. unfold rbind.
  destruct (py_get project "project_label" (JStr "")) as [lv|]; [|discriminate].
  rewrite Hlab.
  destruct (py_get project "project_name" (JStr "")) as [nv|]; [|discriminate].
  rewrite Hname. rewrite (IH Hrest).
  rewrite negb_orb. destruct (_ && _); reflexivity.
Qed.

(** C9 (as amended).  From a list of projects whose labels and names are
    strings, the filter removes exactly the projects whose label or name
    is ["3decision"] up to letter case, and keeps all the others in
    order: a project literally labelled ["3decision"] is removed, and a
    project is kept when neither its label nor its name lower-cases to
    ["3decision"]. *)
Theorem projects_filter_3decision projects_ :
  Forall labelled projects_ ->
  filtered_projects projects_ = Val (filter (fun p => negb (is_3decision p)) projects_) /\
  (forall kept p,
      filtered_projects projects_ = Val kept ->
      (py_get p "project_label" (JStr "") = Val (JStr "3decision") -> ~ In p kept) /\
      (In p projects_ -> is_3decision p = false -> In p kept)).
Proof.
  intros Hl. pose proof (filtered_projects_filter projects_ Hl) as Hf.
  split; [exact Hf|].
  intros kept p Hk. rewrite Hf in Hk. inversion Hk; subst. split.
  - intros Hlabel Hin. apply filter_In in Hin. destruct Hin as [Hin Hneg].
    rewrite Forall_forall in Hl. destruct (Hl p Hin) as [_ [n Hn]].
    unfold is_3decision, lowered, rbind in Hneg. rewrite Hlabel in Hneg.
    unfold lowered, rbind in Hn.
    destruct (py_get p "project_name" (JStr "")) as [nv|]; [|discriminate].
    rewrite Hn in Hneg. discriminate.
  - intros Hin Hno. apply filter_In. split; [exact Hin|]. rewrite Hno. reflexivity.
Qed.

Lemma projects_filter_3decision_witness :
  filtered_projects [JDict [("project_label", JStr "3decision")];
                     JDict [("project_label", JStr "Kinases")]] =
  Val [JDict [("project_label", JStr "Kinases")]].
Proof.
  apply (projects_filter_3decision
           [JDict [("project_label", JStr "3decision")];
            JDict [("project_label", JStr "Kinases")]]).
  repeat constructor; eexists; reflexivity.
Defined.

(** C9 as stated fails: projects whose label is not the literal
    ["3decision"] are removed too, when the label differs only in letter
    case or when the project's name is ["3decision"]. *)
Lemma projects_filter_drops_other_labels :
  filtered_projects [JDict [("project_label", JStr "3Decision")];
                     JDict [("project_label", JStr "Kinases");
                            ("project_name", JStr "3decision")]] = Val [].
Proof. reflexivity. Qed.

(** ** Search polling *)





(** The whole search thread on a job that completes with no results at
    its third poll: two sleeps, then [results_ready([])] and nothing else. *)
Example search_no_results_scenario :
  let w' := snd (SearchThread_run net_no_results "ABL1" w_ready) in
  signals (trace w') = [results_ready []] /\
  count is_request_event (trace w') = 4%nat /\
  count is_sleep_event (trace w') = 1%nat.
Proof. vm_compute. repeat split. Qed.

